(** * httptrace: trace-tree reconstruction and polling loop of [main.go]

    A shallow embedding of the parts of [main.go] that rebuild the call tree
    of a trace from the flat records stored in Elasticsearch:

    - [fetchTrace]: turns the multi-search responses into a
      [map[nodeId]nodeDetails];
    - the body of [main] after a successful fetch, which allocates one
      [gotree] node per record and links every node below the node of its
      parent ([buildTreeIn]);
    - the polling loop of [main] around both ([mainLoop]).

    Go maps are [gmap]s; the [gotree.Tree] values are pointers, so the trees
    live in an explicit heap and [AddTree] updates the heap in place. *)

From stdpp Require Import gmap strings list fin_maps.
From Stdlib Require Import ZArith Lia.

(** ** Data model *)

(** [type nodeId struct { traceID, spanID string }] *)
Record nodeId := NodeId { traceID : string; spanID : string }.

(** [type nodeDetails struct { ... }] *)
Record nodeDetails := NodeDetails {
  parentID : string;
  name : string;
  type_ : string;
  service : string;
  result : string;
  transaction : bool
}.

#[global] Instance nodeId_eq_dec : EqDecision nodeId.
Proof. solve_decision. Defined.

#[global] Instance nodeId_countable : Countable nodeId.
Proof.
  refine (inj_countable' (fun i => (traceID i, spanID i))
                         (fun p => NodeId p.1 p.2) _).
  by intros [].
Defined.

#[global] Instance nodeDetails_eq_dec : EqDecision nodeDetails.
Proof. solve_decision. Defined.

(** The records of one fetch, [map[nodeId]nodeDetails]. *)
Abbreviation nodeMap := (gmap nodeId nodeDetails).

(** ** The [gotree] heap

    [gotree.New] returns a pointer to a fresh [tree{text, items}];
    [AddTree] appends to the [items] of the receiver.  A [Tree] interface
    value is an address or [nil].  Addresses are indices into the heap, which
    only grows. *)

Abbreviation addr := nat.

(** A [gotree.Tree] interface value: [None] is [nil]. *)
Abbreviation Tree := (option addr).

Record tree := MkTree { text : string; items : list Tree }.

Abbreviation heap := (list tree).

(** [gotree.New(text)] *)
Definition New (s : string) (h : heap) : addr * heap :=
  (length h, h ++ [MkTree s []]).

(** [t.AddTree(c)]: [t.items = append(t.items, c)] *)
Definition addItem (c : Tree) (t : tree) : tree :=
  MkTree (text t) (items t ++ [c]).

Definition AddTree (p : addr) (c : Tree) (h : heap) : heap :=
  alter (addItem c) p h.

(** [t.Items()], for a pointer [p]; a dangling pointer has no items. *)
Definition Items (h : heap) (p : addr) : list Tree :=
  from_option items [] (h !! p).

(** ** Colours

    [color.CyanString], [color.RedString] come from [github.com/fatih/color];
    the program only needs that they map a string to a string. *)
Class Color := {
  CyanString : string -> string;
  RedString : string -> string
}.

(** The escape sequences the library writes on a terminal. *)
Definition esc : string := String (Ascii.ascii_of_nat 27) "".

Definition ansiColor : Color := {|
  CyanString s := esc +:+ "[36m" +:+ s +:+ esc +:+ "[0m";
  RedString s := esc +:+ "[31m" +:+ s +:+ esc +:+ "[0m"
|}.

(** With [color.NoColor] set the library returns its argument. *)
Definition noColor : Color := {|
  CyanString s := s;
  RedString s := s
|}.

Section Builder.
Context `{Color}.

(** Lines 108-114: the label of a record. *)
Definition plainText (node : nodeDetails) : string :=
  let nodeText := name node +:+ " (" +:+ service node +:+ ")" in
  if bool_decide (result node <> "")
  then nodeText +:+ " => " +:+ result node
  else nodeText.

Definition nodeText (node : nodeDetails) : string :=
  if transaction node then CyanString (plainText node) else plainText node.

(** Line 106: the key of the synthetic root, [nodeId{traceID: traceID}]. *)
Definition rootKey (trace : string) : nodeId := NodeId trace "".

(** Line 118: the key under which the parent of a record is looked up. *)
Definition parentKey (id : nodeId) (node : nodeDetails) : nodeId :=
  NodeId (traceID id) (parentID node).

(** Lines 107-116: the first [range nodes] loop, over the records in the
    order [l] in which the map is iterated. *)
Fixpoint createNodes (l : list (nodeId * nodeDetails))
    (treeNodes : gmap nodeId addr) (h : heap) : gmap nodeId addr * heap :=
  match l with
  | [] => (treeNodes, h)
  | (id, node) :: l' =>
      let '(t, h') := New (nodeText node) h in
      createNodes l' (<[id := t]> treeNodes) h'
  end.

(** Lines 118-125: the node a record is attached to; [None] stands for
    [continue queryNodes]. *)
Definition parentNodeOf (recentRequest : bool) (orphaned : addr)
    (treeNodes : gmap nodeId addr) (id : nodeId) (node : nodeDetails)
    : option addr :=
  match treeNodes !! parentKey id node with
  | Some p => Some p
  | None => if recentRequest then None else Some orphaned
  end.

(** Lines 117-130: the second [range nodes] loop. *)
Fixpoint attachNodes (recentRequest : bool) (root orphaned : addr)
    (treeNodes : gmap nodeId addr) (l : list (nodeId * nodeDetails))
    (h : heap) (rootTransactions : list nodeId)
    : option (heap * list nodeId) :=
  match l with
  | [] => Some (h, rootTransactions)
  | (id, node) :: l' =>
      match parentNodeOf recentRequest orphaned treeNodes id node with
      | None => None
      | Some parentNode =>
          let h' := AddTree parentNode (treeNodes !! id) h in
          let rootTransactions' :=
            if transaction node && bool_decide (parentNode = root)
            then rootTransactions ++ [id]
            else rootTransactions in
          attachNodes recentRequest root orphaned treeNodes l' h'
                      rootTransactions'
      end
  end.

(** What lines 102-130 leave behind when the second loop runs to its end. *)
Record built := Built {
  b_heap : heap;
  b_root : addr;
  b_orphaned : addr;
  b_treeNodes : gmap nodeId addr;
  b_rootTransactions : list nodeId
}.

(** Lines 102-130 for the queried trace [trace]; [l1] and [l2] are the
    orders in which the two [range nodes] loops visit the map.  [None] is
    the jump back to [queryNodes]. *)
Definition buildTreeIn (trace : string) (recentRequest : bool)
    (l1 l2 : list (nodeId * nodeDetails)) : option built :=
  let '(root, h) := New "" [] in
  let '(orphaned, h) := New (RedString "<orphaned>") h in
  let treeNodes : gmap nodeId addr := {[ rootKey trace := root ]} in
  let '(treeNodes, h) := createNodes l1 treeNodes h in
  match attachNodes recentRequest root orphaned treeNodes l2 h [] with
  | None => None
  | Some (h, rootTransactions) =>
      Some (Built h root orphaned treeNodes rootTransactions)
  end.

(** Go leaves the order of a [range] over a map open.  The facts below hold
    for any two orders, and whether the build jumps back does not depend on
    them; [mainLoop] takes the order of [map_to_list] for both loops. *)
Definition buildTree (trace : string) (recentRequest : bool)
    (nodes : nodeMap) : option built :=
  buildTreeIn trace recentRequest (map_to_list nodes) (map_to_list nodes).

(** The object [createNodes] allocates for a record. *)
Definition freshNode (x : nodeId * nodeDetails) : tree :=
  MkTree (nodeText x.2) [].

(** The heap before the second loop, when the first loop visited the records
    in the order [l1]. *)
Definition heap0 (l1 : list (nodeId * nodeDetails)) : heap :=
  [MkTree "" []; MkTree (RedString "<orphaned>") []] ++ (freshNode <$> l1).

(** The children the second loop appends to the node at [p]. *)
Definition childrenOf (recentRequest : bool) (orphaned : addr)
    (treeNodes : gmap nodeId addr) (p : addr)
    (l : list (nodeId * nodeDetails)) : list Tree :=
  (fun x => treeNodes !! x.1) <$>
    filter (fun x => parentNodeOf recentRequest orphaned treeNodes x.1 x.2
                     = Some p) l.

(** The records the second loop appends to [rootTransactions]. *)
Definition rootTransactionsOf (recentRequest : bool) (root orphaned : addr)
    (treeNodes : gmap nodeId addr)
    (l : list (nodeId * nodeDetails)) : list nodeId :=
  (filter (fun x => transaction x.2 = true /\
                    parentNodeOf recentRequest orphaned treeNodes x.1 x.2
                    = Some root) l).*1.

End Builder.

(** ** Reachability in the heap *)

(** [c] is one of the items of [p]. *)
Definition child (h : heap) (p c : addr) : Prop := Some c ∈ Items h p.

(** [c] is found from [p] by descending through items. *)
Definition reachable (h : heap) : addr -> addr -> Prop := rtc (child h).

(** ** [fetchTrace]

    The Elasticsearch client and [encoding/json] are outside the program:
    a multi-search is given by what [MultiSearch().Do] returned, and a hit
    by what [json.Unmarshal] made of its [_source]. *)

Record spanDoc := SpanDoc {
  span_HexID : string;
  span_Name : string;
  span_Type : string
}.

Record transactionDoc := TransactionDoc {
  transaction_ID : string;
  transaction_Name : string;
  transaction_Type : string;
  transaction_Result : string
}.

(** The local [type source struct] of [fetchTrace]. *)
Record source := Source {
  Context_Service_Name : string;
  Trace_ID : string;
  Parent_ID : string;
  Span : option spanDoc;
  Transaction : option transactionDoc
}.

(** A hit: [json.Unmarshal] failed on it, or filled a [source]. *)
Inductive hit :=
  | BadSource (err : string)
  | GoodSource (s : source).

(** One [response] of the multi-search: [response.Error] (its reason),
    [hits.TotalHits], [hits.Hits]. *)
Record response := Response {
  Error : option string;
  TotalHits : Z;
  Hits : list hit
}.

(** What [esClient.MultiSearch()...Do(ctx)] returned. *)
Inductive msearch :=
  | MSearchErr (err : string)
  | MSearchResponses (responses : list response).

(** How a call of [fetchTrace] ends. *)
Inductive fetched :=
  | FetchOk (nodes : nodeMap)
  | FetchErr (err : string)
  | FetchPanic (msg : string).

(** Lines 289-307: the [switch] on a decoded document; [None] is the
    [panic] of its [default] case. *)
Definition nodeOfSource (s : source) : option (nodeId * nodeDetails) :=
  match Span s, Transaction s with
  | Some sp, _ =>
      Some (NodeId (Trace_ID s) (span_HexID sp),
            NodeDetails (Parent_ID s) (span_Name sp) (span_Type sp)
                        (Context_Service_Name s) "" false)
  | None, Some tx =>
      Some (NodeId (Trace_ID s) (transaction_ID tx),
            NodeDetails (Parent_ID s) (transaction_Name tx)
                        (transaction_Type tx) (Context_Service_Name s)
                        (transaction_Result tx) true)
  | None, None => None
  end.

(** Lines 283-309: the loop over [hits.Hits]. *)
Fixpoint addHits (hits : list hit) (nodes : nodeMap) : fetched :=
  match hits with
  | [] => FetchOk nodes
  | BadSource err :: _ => FetchErr ("failed to unmarshal _source: " +:+ err)
  | GoodSource s :: hits' =>
      match nodeOfSource s with
      | None => FetchPanic "no transaction or span in doc"
      | Some (id, details) => addHits hits' (<[id := details]> nodes)
      end
  end.

(** Line 279: [hits.TotalHits > int64(len(hits.Hits))]. *)
Definition truncated (r : response) : Prop :=
  (Z.of_nat (length (Hits r)) < TotalHits r)%Z.

#[global] Instance truncated_dec r : Decision (truncated r).
Proof. unfold truncated. apply _. Defined.

(** Lines 274-310: the loop over [msearchResult.Responses]. *)
Fixpoint addResponses (rs : list response) (nodes : nodeMap) : fetched :=
  match rs with
  | [] => FetchOk nodes
  | r :: rs' =>
      match Error r with
      | Some reason => FetchErr reason
      | None =>
          if decide (truncated r) then FetchErr "too many hits"
          else match addHits (Hits r) nodes with
               | FetchOk nodes' => addResponses rs' nodes'
               | failed => failed
               end
      end
  end.

Definition fetchTrace (m : msearch) : fetched :=
  match m with
  | MSearchErr err => FetchErr ("querying elasticsearch: " +:+ err)
  | MSearchResponses rs => addResponses rs ∅
  end.

(** ** The polling loop of [main] (lines 80-143) *)

(** What the loop does, in order. *)
Inductive event :=
  | ESleep                       (* [time.Sleep(5 * time.Second)] *)
  | EFetch (count : Z)           (* [fetchTrace] returned [count] records *)
  | EFetchFailed                 (* [fetchTrace] failed or panicked *)
  | ERestart                     (* [continue queryNodes] *)
  | ERender (b : built).         (* lines 131-139: the trees are printed *)

(** How the loop ends. *)
Inductive outcome :=
  | DeadlineExit                 (* line 87: [return] *)
  | LookupExit                   (* line 141: [break] *)
  | Fatal (err : string)         (* line 94: [log.Fatal(err)] *)
  | Panicked (msg : string)
  | OutOfFuel.

(** The world around the loop: what the [k]-th multi-search returns and what
    [time.Now()] reads at the [k]-th deadline check. *)
Record env := Env {
  backend : nat -> msearch;
  clock : nat -> Z
}.

Definition prepend (evs : list event) (r : list event * outcome)
    : list event * outcome :=
  (evs ++ r.1, r.2).

Section Controller.
Context `{Color}.
(** The package variable [traceID], the local [recentRequest], and
    [deadline], which is [time.Now().Add(pollDuration)] when
    [recentRequest] is set. *)
Variables (trace : string) (recentRequest : bool) (deadline : Z).
Variable E : env.

(** One unit of fuel is one pass through lines 85-99; [k] counts the
    passes made so far.  Both [for] loops jump back to line 85, the inner
    one when the count is unchanged, the outer one after a restart or a
    render. *)
Fixpoint mainLoop (fuel : nat) (lastNodeCount : Z) (k : nat)
    : list event * outcome :=
  match fuel with
  | 0 => ([], OutOfFuel)
  | S fuel =>
      if recentRequest && negb (clock E k <? deadline)%Z
      then ([], DeadlineExit)
      else
        let slept := if recentRequest then [ESleep] else [] in
        match fetchTrace (backend E k) with
        | FetchErr err => (slept ++ [EFetchFailed], Fatal err)
        | FetchPanic msg => (slept ++ [EFetchFailed], Panicked msg)
        | FetchOk nodes =>
            let count := Z.of_nat (size nodes) in
            if (count =? lastNodeCount)%Z
            then prepend (slept ++ [EFetch count])
                         (mainLoop fuel lastNodeCount (S k))
            else
              match buildTree trace recentRequest nodes with
              | None =>
                  prepend (slept ++ [EFetch count; ERestart])
                          (mainLoop fuel count (S k))
              | Some b =>
                  if recentRequest
                  then prepend (slept ++ [EFetch count; ERender b])
                               (mainLoop fuel count (S k))
                  else (slept ++ [EFetch count; ERender b], LookupExit)
              end
        end
  end.

(** Line 80: [var lastNodeCount int]. *)
Definition run (fuel : nat) : list event * outcome := mainLoop fuel 0 0.

End Controller.

Definition isRender (e : event) : bool :=
  match e with ERender _ => true | _ => false end.

Definition isFetch (e : event) : bool :=
  match e with EFetch _ | EFetchFailed => true | _ => false end.

(** The number of build-and-render passes in a run. *)
Definition renders (evs : list event) : nat :=
  length (List.filter isRender evs).

Definition isSleep (e : event) : bool :=
  match e with ESleep => true | _ => false end.

(** The number of passes that got past the deadline check. *)
Definition passes (evs : list event) : nat :=
  length (List.filter isSleep evs).

(** The shape of the events of a polling run that starts with pass [k]:
    every pass, whatever the previous one ended with, first finds the
    deadline not reached, then sleeps, then fetches. *)
Inductive pollTrace (deadline : Z) (E : env) : nat -> list event -> Prop :=
  | poll_end k : pollTrace deadline E k []
  | poll_failed k :
      (clock E k < deadline)%Z ->
      pollTrace deadline E k [ESleep; EFetchFailed]
  | poll_unchanged k count evs :
      (clock E k < deadline)%Z ->
      pollTrace deadline E (S k) evs ->
      pollTrace deadline E k (ESleep :: EFetch count :: evs)
  | poll_restart k count evs :
      (clock E k < deadline)%Z ->
      pollTrace deadline E (S k) evs ->
      pollTrace deadline E k (ESleep :: EFetch count :: ERestart :: evs)
  | poll_render k count b evs :
      (clock E k < deadline)%Z ->
      pollTrace deadline E (S k) evs ->
      pollTrace deadline E k (ESleep :: EFetch count :: ERender b :: evs).

(** ** Example record sets *)

(** Two records that name each other as parent. *)
Definition cyclic : nodeMap :=
  <[ NodeId "T" "a" := NodeDetails "b" "GET /a" "request" "svc-a" "200" true ]>
  {[ NodeId "T" "b" := NodeDetails "a" "GET /b" "request" "svc-b" "200" true ]}.

(** One record that names itself as parent. *)
Definition selfParented : nodeMap :=
  {[ NodeId "T" "a" := NodeDetails "a" "SELECT" "db" "svc-a" "" false ]}.

(** A root transaction with one span below it. *)
Definition rooted : nodeMap :=
  <[ NodeId "T" "t1" := NodeDetails "" "GET /" "request" "svc-a" "200" true ]>
  {[ NodeId "T" "s1" := NodeDetails "t1" "SELECT" "db" "svc-a" "" false ]}.

(** A record of another trace than the queried one, without a parent. *)
Definition foreign : nodeMap :=
  {[ NodeId "U" "x" := NodeDetails "" "GET /" "request" "svc-a" "200" true ]}.

(** A record of another trace whose span id is empty. *)
Definition foreignUnnamed : nodeMap :=
  {[ NodeId "U" "" := NodeDetails "" "GET /" "request" "svc-a" "200" true ]}.

(** A span whose parent is not among the records. *)
Definition orphan : nodeMap :=
  {[ NodeId "T" "s2" := NodeDetails "s1" "SELECT" "db" "svc-a" "" false ]}.

(** The build of a lookup ([recentRequest] unset) of trace [T], with colours
    on; a lookup never jumps back, so the default is never used. *)
Definition lookupOf (nodes : nodeMap) : built :=
  default (Built [] 0 0 ∅ []) (@buildTree ansiColor "T" false nodes).

(** Example worlds.  Times are nanoseconds since the deadline was set. *)

Definition seconds (n : Z) : Z := (n * 1000000000)%Z.

(** Both searches succeed and return no hit. *)
Definition noHits : msearch :=
  MSearchResponses [Response None 0 []; Response None 0 []].

(** The span [s2] of trace [T], whose parent [s1] is not indexed yet. *)
Definition spanS2 : hit :=
  GoodSource (Source "svc-a" "T" "s1"
                     (Some (SpanDoc "s2" "SELECT" "db")) None).

Definition spanS1 : hit :=
  GoodSource (Source "svc-a" "T" "t1"
                     (Some (SpanDoc "s1" "render" "template")) None).

Definition transactionT1 : hit :=
  GoodSource (Source "svc-a" "T" ""
                     None (Some (TransactionDoc "t1" "GET /" "request" "200"))).

(** Every pass takes the five seconds of its sleep. *)
Definition fiveSecondClock (k : nat) : Z := seconds (5 * Z.of_nat k).

(** A trace that never gets a record. *)
Definition silent : env := Env (fun _ => noHits) fiveSecondClock.

(** A trace whose span [s2] is indexed before its parent [s1] and the root
    transaction [t1], which come with the second fetch. *)
Definition lateParent : env :=
  Env (fun k =>
         match k with
         | 0 => MSearchResponses [Response None 0 []; Response None 1 [spanS2]]
         | _ => MSearchResponses [Response None 1 [transactionT1];
                                  Response None 2 [spanS2; spanS1]]
         end)
      fiveSecondClock.

(** The span index reports two hits and returns one. *)
Definition cutShort : env :=
  Env (fun _ => MSearchResponses [Response None 1 [transactionT1];
                                  Response None 2 [spanS1]])
      fiveSecondClock.

(** The six passes of thirty seconds of polling a trace without records. *)
Definition sixQuietPasses : list event :=
  concat (replicate 6 [ESleep; EFetch 0]).

(** ** Reading the result of [fetchTrace] *)

(** What lines 284-307 make of a hit: no node when [json.Unmarshal] fails
    or the document is neither span nor transaction. *)
Definition nodeOfHit (x : hit) : option (nodeId * nodeDetails) :=
  match x with
  | BadSource _ => None
  | GoodSource s => nodeOfSource s
  end.

(** The hits of all responses, in the order in which [fetchTrace] visits
    them. *)
Definition allHits (rs : list response) : list hit := rs ≫= Hits.

(** [nodes[id] = details] for a list of nodes, first to last. *)
Definition insertAll (kvs : list (nodeId * nodeDetails)) (nodes : nodeMap)
    : nodeMap :=
  foldl (fun m kv => <[kv.1 := kv.2]> m) nodes kvs.

(** ** Reading the events of a run *)

(** A build was started from the fetch before: it was rendered, or it
    jumped back. *)
Definition isBuild (e : event) : bool :=
  match e with ERender _ | ERestart => true | _ => false end.

(** The record counts of the fetches that were followed by a build. *)
Fixpoint buildCounts (evs : list event) : list Z :=
  match evs with
  | [] => []
  | e :: evs' =>
      match e, evs' with
      | EFetch count, e' :: _ =>
          if isBuild e' then count :: buildCounts evs' else buildCounts evs'
      | _, _ => buildCounts evs'
      end
  end.

(** Every count of [counts] differs from the one before it, the first one
    from [n]. *)
Fixpoint changing (n : Z) (counts : list Z) : Prop :=
  match counts with
  | [] => True
  | count :: counts' => count <> n /\ changing count counts'
  end.

(** The build the polling run of [lateParent] renders in its second pass. *)
Definition lateParentBuilt : built :=
  default (Built [] 0 0 ∅ [])
    (match fetchTrace (backend lateParent 1) with
     | FetchOk nodes => @buildTree ansiColor "T" true nodes
     | _ => None
     end).

(** Membership in the events of one pass, split into its cases. *)
Ltac split_events H :=
  repeat first
    [ apply elem_of_app in H as [H|H]
    | apply elem_of_cons in H as [H|H]
    | by apply elem_of_nil in H ].

(** ** [transactionURL] and the printing of a build (lines 131-139, 180-217)

    Kibana and [net/url] are outside the program: [url.PathEscape] is a
    parameter, and Kibana is given by what the POST of a path to
    [/api/shorten_url] is answered with. *)

(** The bytes [%] and [~]. *)
Definition percent : Ascii.ascii := Ascii.ascii_of_nat 37.
Definition tilde : Ascii.ascii := Ascii.ascii_of_nat 126.

(** [strings.Replace(u, "%", "~", -1)]: both strings are one byte long, so
    every byte [%] becomes [~] and every other byte stays. *)
Fixpoint replacePercent (u : string) : string :=
  match u with
  | EmptyString => EmptyString
  | String c u' =>
      String (if Ascii.eqb c percent then tilde else c) (replacePercent u')
  end.

(** Whether the byte [c] occurs in [s]. *)
Fixpoint occurs (c : Ascii.ascii) (s : string) : bool :=
  match s with
  | EmptyString => false
  | String c' s' => Ascii.eqb c' c || occurs c s'
  end.

(** How the POST of line 194-203 ends. *)
Inductive shortenAnswer :=
  | RequestRefused (err : string)   (* [http.NewRequest] returned an error *)
  | NoAnswer (err : string)         (* [http.DefaultClient.Do] did *)
  | Answer (status : Z) (body : string + string).
                                    (* the status code, and the error of
                                       the decoder or the [urlId] of the
                                       body *)

(** What [transactionURL] returns: a URL and [nil], or an error. *)
Inductive linked :=
  | Link (url : string)
  | NoLink (err : string).

Section TransactionURL.
Variable PathEscape : string -> string.
(** [kibanaURL.String()] and the Kibana behind it. *)
Variable kibanaURL : string.
Variable kibana : string -> shortenAnswer.

(** Line 181. *)
Definition kueryOf (id : nodeId) : string :=
  "trace.id:" +:+ traceID id +:+ " and transaction.id:" +:+ spanID id.

(** Lines 182-190: the path that is sent to Kibana. *)
Definition appPath (id : nodeId) (details : nodeDetails) : string :=
  replacePercent
    ("/app/apm#/" +:+ service details +:+ "/transactions/" +:+ type_ details
       +:+ "/" +:+ PathEscape (name details)
       +:+ "?_g=()&kuery=" +:+ PathEscape (kueryOf id)).

(** Lines 180-217. *)
Definition transactionURL (id : nodeId) (details : nodeDetails) : linked :=
  match kibana (appPath id details) with
  | RequestRefused err => NoLink err
  | NoAnswer err => NoLink err
  | Answer status body =>
      if bool_decide (status <> 200%Z) then NoLink "error shortening URL"
      else match body with
           | inl err => NoLink err
           | inr urlID => Link (kibanaURL +:+ "/goto/" +:+ urlID)
           end
  end.

(** What lines 131-139 print: a tree ([t.Print()]) or the line with the
    link to Kibana. *)
Inductive printed :=
  | PTree (t : Tree)
  | PLink (url : string).

(** [nodes[id]]: the zero [nodeDetails] when [id] is no key. *)
Definition detailsOf (nodes : nodeMap) (id : nodeId) : nodeDetails :=
  default (NodeDetails "" "" "" "" "" false) (nodes !! id).

(** Lines 132-135: what is printed for one root transaction. *)
Definition renderRoot (nodes : nodeMap) (b : built) (id : nodeId)
    : list printed :=
  PTree (b_treeNodes b !! id) ::
  match transactionURL id (detailsOf nodes id) with
  | Link url => [PLink url]
  | NoLink _ => []
  end.

(** Lines 131-139. *)
Definition render (nodes : nodeMap) (b : built) : list printed :=
  (b_rootTransactions b ≫= renderRoot nodes b) ++
  (if decide (0 < length (Items (b_heap b) (b_orphaned b)))
   then [PTree (Some (b_orphaned b))]
   else []).

End TransactionURL.

(** The trees among the printed lines. *)
Definition treeOf (p : printed) : option Tree :=
  match p with PTree t => Some t | PLink _ => None end.

(** ** The start of [main] (lines 49-78)

    The flags and arguments are what [flag.Parse] found; [url.Parse] and
    [doRequest] are given by what they return. *)

Inductive started :=
  | UsageExit                       (* lines 54-55: usage, [os.Exit(2)] *)
  | BadKibanaURL (err : string)     (* line 61: [log.Fatalf] *)
  | BadURL (err : string)           (* line 72: [log.Fatalf] *)
  | RequestFailed (err : string)    (* line 154: [log.Fatal] *)
  | Started (usage : bool) (trace : string) (recentRequest : bool)
            (deadline : Z).         (* the loop is entered *)

Record outside := Outside {
  urlParse : string -> option string;   (* the error of [url.Parse] *)
  doRequest : string -> string + string;
                                        (* the error of [client.Do], or the
                                           trace id of the request *)
  startTime : Z                         (* [time.Now()] at line 77 *)
}.

(** Lines 52-78; [traceFlag] is the package variable [traceID] as the flags
    left it.  [usage] records the call of [flag.Usage] at line 68, the
    fourth component is [deadline] (the zero time when it is not set). *)
Definition start (O : outside) (args : list string)
    (traceFlag kibanaURLFlag : string) (pollDuration : Z) : started :=
  if bool_decide (length args <> 1) && bool_decide (traceFlag = "")
  then UsageExit
  else
    match urlParse O kibanaURLFlag with
    | Some err => BadKibanaURL err
    | None =>
        match args with
        | [arg] =>
            match urlParse O arg with
            | Some err => BadURL err
            | None =>
                match doRequest O arg with
                | inl err => RequestFailed err
                | inr trace =>
                    Started (bool_decide (traceFlag <> "")) trace true
                            (startTime O + pollDuration)
                end
            end
        | _ => Started false traceFlag false 0
        end
    end.

(** [main], up to [fuel] passes of its loop: how it ended before the loop,
    or the events and the outcome of the loop. *)
Definition mainRun `{Color} (O : outside) (E : env) (args : list string)
    (traceFlag kibanaURLFlag : string) (pollDuration : Z) (fuel : nat)
    : started * option (list event * outcome) :=
  match start O args traceFlag kibanaURLFlag pollDuration with
  | Started usage trace recentRequest deadline =>
      (Started usage trace recentRequest deadline,
       Some (run trace recentRequest deadline E fuel))
  | stopped => (stopped, None)
  end.

(** A world in which every URL parses and the request gets trace [T]. *)
Definition friendly : outside :=
  Outside (fun _ => None) (fun _ => inr "T") 0.

(** A Kibana that shortens every path to [abc]. *)
Definition shortening (path : string) : shortenAnswer :=
  Answer 200 (inr "abc").

(** A Kibana that is down. *)
Definition down (path : string) : shortenAnswer :=
  NoAnswer "connection refused".

(** Two transaction documents with the same id [t1]. *)
Definition transactionT1Again : hit :=
  GoodSource (Source "svc-b" "T" ""
                     None (Some (TransactionDoc "t1" "POST /" "request" "500"))).

Definition twoAnswers : list response :=
  [Response None 2 [transactionT1; transactionT1Again];
   Response None 1 [spanS1]].

(** The records [fetchTrace] makes of [twoAnswers]. *)
Definition twoAnswersNodes : nodeMap :=
  <[ NodeId "T" "s1" := NodeDetails "t1" "render" "template" "svc-a" "" false ]>
  {[ NodeId "T" "t1" := NodeDetails "" "POST /" "request" "svc-b" "500" true ]}.

(** A transaction without a span id, and a span without a parent: the
    transaction has the identity of the root key of trace [T]. *)
Definition rootTaken : nodeMap :=
  <[ NodeId "T" "" := NodeDetails "" "GET /" "request" "svc-a" "200" true ]>
  {[ NodeId "T" "s1" := NodeDetails "" "SELECT" "db" "svc-a" "" false ]}.

(** ** Facts about the two loops *)

Section BuilderFacts.
Context `{Color}.

Implicit Types (l : list (nodeId * nodeDetails)) (h : heap).
Implicit Types (treeNodes : gmap nodeId addr) (id k : nodeId).

Lemma createNodes_heap l treeNodes h :
  (createNodes l treeNodes h).2 = h ++ (freshNode <$> l).
Proof.
  revert treeNodes h.
  induction l as [|[id node] l IH]; intros treeNodes h; simpl.
  - by rewrite app_nil_r.
  - rewrite IH. by rewrite <- app_assoc.
Qed.

Lemma createNodes_notin l treeNodes h k :
  k ∉ l.*1 -> (createNodes l treeNodes h).1 !! k = treeNodes !! k.
Proof.
  revert treeNodes h.
  induction l as [|[id node] l IH]; intros treeNodes h Hk; simpl in *.
  - done.
  - apply not_elem_of_cons in Hk as [Hne Hk].
    rewrite IH by done. by rewrite lookup_insert_ne.
Qed.

Lemma createNodes_in l treeNodes h i id node :
  NoDup l.*1 -> l !! i = Some (id, node) ->
  (createNodes l treeNodes h).1 !! id = Some (length h + i).
Proof.
  revert treeNodes h i.
  induction l as [|[id' node'] l IH]; intros treeNodes h i Hnd Hi.
  - done.
  - simpl in Hnd. apply NoDup_cons in Hnd as [Hfresh Hnd].
    destruct i as [|i]; simpl in *.
    + injection Hi as -> ->.
      rewrite createNodes_notin by done.
      rewrite lookup_insert_eq. f_equal. lia.
    + rewrite (IH _ _ i) by done.
      rewrite length_app. simpl. f_equal. lia.
Qed.

Lemma createNodes_lookup_inv l treeNodes h k a :
  NoDup l.*1 -> (createNodes l treeNodes h).1 !! k = Some a ->
  ((k ∉ l.*1) /\ treeNodes !! k = Some a) \/
  (exists i node, l !! i = Some (k, node) /\ a = length h + i).
Proof.
  intros Hnd Hk.
  destruct (decide (k ∈ l.*1)) as [Hin|Hnin].
  - right. apply list_elem_of_fmap in Hin as ([k' node] & -> & Hin).
    apply list_elem_of_lookup in Hin as [i Hi].
    exists i, node. split; [done|].
    rewrite (createNodes_in _ _ _ i k' node) in Hk by done. congruence.
  - left. split; [done|]. by rewrite createNodes_notin in Hk.
Qed.

Lemma AddTree_lookup p c h q :
  AddTree p c h !! q =
  if decide (p = q) then addItem c <$> h !! q else h !! q.
Proof.
  unfold AddTree. rewrite list_lookup_alter.
  repeat case_decide; by subst.
Qed.

Lemma attachNodes_Some recentRequest root orphaned treeNodes l h rts h' rts' :
  attachNodes recentRequest root orphaned treeNodes l h rts = Some (h', rts') ->
  (forall x, x ∈ l ->
     is_Some (parentNodeOf recentRequest orphaned treeNodes x.1 x.2)) /\
  length h' = length h /\
  (forall p t, h !! p = Some t ->
     h' !! p = Some (MkTree (text t)
       (items t ++ childrenOf recentRequest orphaned treeNodes p l))) /\
  rts' = rts ++ rootTransactionsOf recentRequest root orphaned treeNodes l.
Proof.
  revert h rts.
  induction l as [|[id node] l IH]; intros h rts Hrun; simpl in Hrun.
  - injection Hrun as <- <-. repeat split.
    + intros x Hx. by apply elem_of_nil in Hx.
    + intros p [txt its] Hp. simpl. by rewrite app_nil_r.
    + by rewrite app_nil_r.
  - destruct (parentNodeOf recentRequest orphaned treeNodes id node)
      as [parentNode|] eqn:Hparent; [|done].
    apply IH in Hrun as (Hall & Hlen & Hitems & Hrts).
    repeat split.
    + intros x [->|Hx]%elem_of_cons; [simpl; by rewrite Hparent|by apply Hall].
    + rewrite Hlen. unfold AddTree. by rewrite length_alter.
    + intros p t Hp.
      unfold childrenOf. rewrite filter_cons. simpl.
      destruct (decide (parentNodeOf recentRequest orphaned treeNodes id node
                        = Some p)) as [Hdec|Hdec].
      * assert (parentNode = p) as -> by congruence.
        erewrite Hitems; last first.
        { rewrite AddTree_lookup, decide_True by done.
          rewrite Hp. reflexivity. }
        simpl. by rewrite <- app_assoc.
      * assert (parentNode <> p) as Hne by congruence.
        erewrite Hitems; last first.
        { rewrite AddTree_lookup, decide_False by done. exact Hp. }
        done.
    + rewrite Hrts. unfold rootTransactionsOf. rewrite filter_cons.
      match goal with
      | |- context [decide ?P] => destruct (decide P) as [[Htx Hroot]|Hno]
      end; simpl in *.
      * assert (parentNode = root) as -> by congruence.
        rewrite Htx, bool_decide_eq_true_2 by done.
        simpl. by rewrite <- app_assoc.
      * destruct (transaction node); [|done]. simpl.
        rewrite bool_decide_eq_false_2; [done|].
        intros ->. by apply Hno.
Qed.

Lemma attachNodes_total recentRequest root orphaned treeNodes l h rts :
  (forall x, x ∈ l ->
     is_Some (parentNodeOf recentRequest orphaned treeNodes x.1 x.2)) ->
  is_Some (attachNodes recentRequest root orphaned treeNodes l h rts).
Proof.
  revert h rts.
  induction l as [|[id node] l IH]; intros h rts Hall; simpl.
  - by eexists.
  - destruct (Hall (id, node)) as [p Hp]; [by left|].
    simpl in Hp. rewrite Hp. apply IH.
    intros x Hx. apply Hall. by right.
Qed.

Lemma attachNodes_None recentRequest root orphaned treeNodes l h rts :
  attachNodes recentRequest root orphaned treeNodes l h rts = None ->
  exists x, x ∈ l /\
    parentNodeOf recentRequest orphaned treeNodes x.1 x.2 = None.
Proof.
  revert h rts.
  induction l as [|[id node] l IH]; intros h rts Hrun; simpl in Hrun.
  - done.
  - destruct (parentNodeOf recentRequest orphaned treeNodes id node)
      as [parentNode|] eqn:Hparent.
    + apply IH in Hrun as (x & Hx & Hnone). exists x. split; [by right|done].
    + exists (id, node). split; [by left|done].
Qed.

End BuilderFacts.

(** ** A build that ran to its end *)

Section CompletedBuild.
Context `{Color}.
Variables (trace : string) (recentRequest : bool) (nodes : nodeMap).
Variables (l1 l2 : list (nodeId * nodeDetails)).
Hypothesis Hl1 : l1 ≡ₚ map_to_list nodes.
Hypothesis Hl2 : l2 ≡ₚ map_to_list nodes.
Variable b : built.
Hypothesis Hbuild : buildTreeIn trace recentRequest l1 l2 = Some b.

Lemma elem_of_order1 id node : (id, node) ∈ l1 <-> nodes !! id = Some node.
Proof. rewrite Hl1. apply elem_of_map_to_list. Qed.

Lemma elem_of_order2 id node : (id, node) ∈ l2 <-> nodes !! id = Some node.
Proof. rewrite Hl2. apply elem_of_map_to_list. Qed.

Lemma NoDup_order1 : NoDup l1.*1.
Proof. rewrite Hl1. apply NoDup_fst_map_to_list. Qed.

Lemma built_unfold :
  b_root b = 0 /\ b_orphaned b = 1 /\
  b_treeNodes b =
    (createNodes l1 {[ rootKey trace := 0 ]}
       [MkTree "" []; MkTree (RedString "<orphaned>") []]).1 /\
  attachNodes recentRequest 0 1 (b_treeNodes b) l2 (heap0 l1) []
    = Some (b_heap b, b_rootTransactions b).
Proof.
  pose proof Hbuild as Hb. unfold buildTreeIn in Hb. simpl in Hb.
  pose proof (createNodes_heap l1 {[ rootKey trace := 0 ]}
    [MkTree "" []; MkTree (RedString "<orphaned>") []]) as Hheap.
  destruct (createNodes l1 _ _) as [treeNodes h] eqn:Hcreate.
  simpl in Hheap. subst h.
  destruct (attachNodes _ _ _ _ _ _ _) as [[h' rts]|] eqn:Hattach; [|done].
  injection Hb as <-. simpl. by rewrite <- Hattach.
Qed.

Lemma built_root : b_root b = 0.
Proof. apply built_unfold. Qed.

Lemma built_orphaned : b_orphaned b = 1.
Proof. apply built_unfold. Qed.

(** Every record has a node of its own, allocated after the root and
    [orphaned]. *)
Lemma treeNodes_record id node :
  nodes !! id = Some node ->
  exists i, l1 !! i = Some (id, node) /\ b_treeNodes b !! id = Some (2 + i).
Proof.
  intros Hid. apply elem_of_order1, list_elem_of_lookup in Hid as [i Hi].
  exists i. split; [done|].
  destruct built_unfold as (_ & _ & -> & _).
  by rewrite (createNodes_in _ _ _ i id node) by auto using NoDup_order1.
Qed.

Lemma treeNodes_inv k a :
  b_treeNodes b !! k = Some a ->
  (nodes !! k = None /\ k = rootKey trace /\ a = 0) \/
  (exists i node, l1 !! i = Some (k, node) /\ a = 2 + i).
Proof.
  destruct built_unfold as (_ & _ & -> & _). intros Hk.
  apply createNodes_lookup_inv in Hk as [[Hnin Hk]|Hk];
    [|by right|apply NoDup_order1].
  left. apply lookup_singleton_Some in Hk as [<- <-].
  split; [|done].
  destruct (nodes !! rootKey trace) as [node|] eqn:Hroot; [|done].
  exfalso. apply Hnin. apply list_elem_of_fmap.
  exists (rootKey trace, node). split; [done|]. by apply elem_of_order1.
Qed.

(** Distinct map keys hold distinct pointers. *)
Lemma treeNodes_inj k1 k2 a :
  b_treeNodes b !! k1 = Some a -> b_treeNodes b !! k2 = Some a -> k1 = k2.
Proof.
  intros [(_ & -> & ->)|(i & n1 & Hi & ->)]%treeNodes_inv
         [(_ & -> & Ha)|(j & n2 & Hj & Ha)]%treeNodes_inv;
    try done; try lia.
  assert (i = j) as -> by lia. congruence.
Qed.

Lemma treeNodes_in_heap k a :
  b_treeNodes b !! k = Some a -> is_Some (heap0 l1 !! a).
Proof.
  intros [(_ & _ & ->)|(i & node & Hi & ->)]%treeNodes_inv.
  - by eexists.
  - unfold heap0. simpl. rewrite list_lookup_fmap, Hi. by eexists.
Qed.

(** No map entry points at [orphaned]. *)
Lemma treeNodes_not_orphaned k : b_treeNodes b !! k <> Some 1.
Proof.
  intros [(_ & _ & ?)|(i & node & _ & ?)]%treeNodes_inv; lia.
Qed.

(** The root pointer is in the map exactly under the root key, and only
    while no record has that identity. *)
Lemma treeNodes_root k :
  b_treeNodes b !! k = Some 0 <-> k = rootKey trace /\ nodes !! k = None.
Proof.
  split.
  - intros [(? & ? & _)|(i & node & _ & ?)]%treeNodes_inv; [done|lia].
  - intros [-> Hnone]. destruct built_unfold as (_ & _ & -> & _).
    rewrite createNodes_notin; [by rewrite lookup_singleton_eq|].
    intros ([k node] & Hk & Hin)%list_elem_of_fmap. simpl in Hk. subst k.
    apply elem_of_order1 in Hin. congruence.
Qed.

Lemma treeNodes_None k :
  b_treeNodes b !! k = None <-> k <> rootKey trace /\ nodes !! k = None.
Proof.
  split.
  - intros Hk. split.
    + intros ->. destruct (nodes !! rootKey trace) as [node|] eqn:Hroot.
      * apply treeNodes_record in Hroot as (i & _ & Hi). congruence.
      * assert (b_treeNodes b !! rootKey trace = Some 0) by
          by apply treeNodes_root.
        congruence.
    + destruct (nodes !! k) as [node|] eqn:Hnode; [|done].
      apply treeNodes_record in Hnode as (i & _ & Hi). congruence.
  - intros [Hne Hnone].
    destruct (b_treeNodes b !! k) as [a|] eqn:Hk; [|done].
    apply treeNodes_inv in Hk as [(_ & ? & _)|(i & node & Hi & _)]; [done|].
    apply list_elem_of_lookup_2, elem_of_order1 in Hi. congruence.
Qed.

(** The final heap: every object keeps its text and holds exactly the
    children the second loop gave it. *)
Lemma built_heap_lookup p :
  b_heap b !! p =
  (fun t => MkTree (text t)
     (childrenOf recentRequest 1 (b_treeNodes b) p l2)) <$> heap0 l1 !! p.
Proof.
  destruct built_unfold as (_ & _ & _ & Hattach).
  apply attachNodes_Some in Hattach as (_ & Hlen & Hitems & _).
  destruct (heap0 l1 !! p) as [t|] eqn:Hp; simpl.
  - rewrite (Hitems p t Hp).
    assert (items t = []) as ->; [|done].
    unfold heap0 in Hp.
    destruct p as [|[|p]]; simpl in Hp; [by injection Hp as <-..|].
    rewrite list_lookup_fmap in Hp.
    destruct (l1 !! p); simpl in Hp; [by injection Hp as <-|done].
  - apply lookup_ge_None. rewrite Hlen. by apply lookup_ge_None.
Qed.

Lemma built_Items p :
  is_Some (heap0 l1 !! p) ->
  Items (b_heap b) p = childrenOf recentRequest 1 (b_treeNodes b) p l2.
Proof.
  intros [t Hp]. unfold Items. by rewrite built_heap_lookup, Hp.
Qed.

Lemma built_Items_dangling p :
  heap0 l1 !! p = None -> Items (b_heap b) p = [].
Proof. intros Hp. unfold Items. by rewrite built_heap_lookup, Hp. Qed.

(** Every record found a node to hang from. *)
Lemma built_parent id node :
  nodes !! id = Some node ->
  is_Some (parentNodeOf recentRequest 1 (b_treeNodes b) id node).
Proof.
  intros Hid. destruct built_unfold as (_ & _ & _ & Hattach).
  apply attachNodes_Some in Hattach as (Hall & _).
  apply (Hall (id, node)). by apply elem_of_order2.
Qed.

Lemma parentNodeOf_in_heap id node p :
  parentNodeOf recentRequest 1 (b_treeNodes b) id node = Some p ->
  is_Some (heap0 l1 !! p).
Proof.
  unfold parentNodeOf.
  destruct (b_treeNodes b !! parentKey id node) as [q|] eqn:Hq.
  - intros [= <-]. by eapply treeNodes_in_heap.
  - destruct recentRequest; [done|]. intros [= <-]. by eexists.
Qed.

(** Placement: the node of a record is an item of [p] exactly when [p] is
    the node the second loop chose as its parent. *)
Lemma placed id node a p :
  nodes !! id = Some node -> b_treeNodes b !! id = Some a ->
  Some a ∈ Items (b_heap b) p <->
  parentNodeOf recentRequest 1 (b_treeNodes b) id node = Some p.
Proof.
  intros Hid Ha. split.
  - intros Hin.
    destruct (heap0 l1 !! p) as [t|] eqn:Hp;
      [|rewrite built_Items_dangling in Hin by done;
        by apply elem_of_nil in Hin].
    rewrite built_Items in Hin by (by eexists).
    apply list_elem_of_fmap in Hin as ([id' node'] & Ha' & Hin).
    apply list_elem_of_filter in Hin as [Hparent Hin]. simpl in *.
    assert (id' = id) as -> by (eapply treeNodes_inj; eauto).
    apply elem_of_order2 in Hin.
    assert (node' = node) as -> by congruence. done.
  - intros Hparent.
    rewrite built_Items by (by eapply parentNodeOf_in_heap).
    apply list_elem_of_fmap. exists (id, node). split; [done|].
    apply list_elem_of_filter. split; [done|]. by apply elem_of_order2.
Qed.

(** The items of any node are nodes of records. *)
Lemma Items_are_records p c :
  c ∈ Items (b_heap b) p ->
  exists id node a, nodes !! id = Some node /\
    b_treeNodes b !! id = Some a /\ c = Some a.
Proof.
  intros Hin.
  destruct (heap0 l1 !! p) as [t|] eqn:Hp;
    [|rewrite built_Items_dangling in Hin by done;
      by apply elem_of_nil in Hin].
  rewrite built_Items in Hin by (by eexists).
  apply list_elem_of_fmap in Hin as ([id node] & -> & Hin).
  apply list_elem_of_filter in Hin as [_ Hin]. simpl.
  apply elem_of_order2 in Hin.
  destruct (treeNodes_record id node Hin) as (i & _ & Hi).
  by exists id, node, (2 + i).
Qed.

Lemma built_rootTransactions :
  b_rootTransactions b =
  rootTransactionsOf recentRequest 0 1 (b_treeNodes b) l2.
Proof.
  destruct built_unfold as (_ & _ & _ & Hattach).
  by apply attachNodes_Some in Hattach as (_ & _ & _ & ->).
Qed.

End CompletedBuild.

Section BuildOutcome.
Context `{Color}.
Variables (trace : string) (nodes : nodeMap).
Variables (l1 l2 : list (nodeId * nodeDetails)).
Hypothesis Hl1 : l1 ≡ₚ map_to_list nodes.
Hypothesis Hl2 : l2 ≡ₚ map_to_list nodes.

(** A lookup of an existing trace never jumps back. *)
Lemma buildTreeIn_lookup_total : is_Some (buildTreeIn trace false l1 l2).
Proof.
  unfold buildTreeIn. simpl.
  destruct (createNodes l1 _ _) as [treeNodes h].
  destruct (attachNodes_total false 0 1 treeNodes l2 h []) as [[h' rts] ->].
  - intros [id node] _. simpl. unfold parentNodeOf.
    by destruct (treeNodes !! _); eexists.
  - by eexists.
Qed.

(** While polling, the build jumps back exactly when the parent of some
    record is neither a record nor the root key. *)
Lemma buildTreeIn_restart_iff :
  buildTreeIn trace true l1 l2 = None <->
  exists id node, nodes !! id = Some node /\
    parentKey id node <> rootKey trace /\ nodes !! parentKey id node = None.
Proof.
  split.
  - intros Hnone.
    destruct buildTreeIn_lookup_total as [b0 Hb0].
    pose proof (built_unfold trace false l1 l2 b0 Hb0) as (_ & _ & Htn & _).
    unfold buildTreeIn in Hnone. simpl in Hnone.
    destruct (createNodes l1 _ _) as [treeNodes h] eqn:Hcreate.
    simpl in Htn. subst treeNodes.
    destruct (attachNodes _ _ _ _ _ _ _) as [[h' rts]|] eqn:Hattach; [done|].
    apply attachNodes_None in Hattach as ([id node] & Hin & Hparent).
    simpl in Hparent. unfold parentNodeOf in Hparent.
    destruct (b_treeNodes b0 !! parentKey id node) eqn:Hk; [done|].
    apply (treeNodes_None trace false nodes l1 l2 Hl1 b0 Hb0) in Hk as [? ?].
    exists id, node. split; [|done].
    by apply (elem_of_order2 nodes l2 Hl2).
  - intros (id & node & Hid & Hne & Hnone).
    destruct (buildTreeIn trace true l1 l2) as [b|] eqn:Hb; [|done].
    exfalso.
    destruct (built_parent trace true nodes l1 l2 Hl2 b Hb id node Hid)
      as [p Hp].
    unfold parentNodeOf in Hp.
    assert (b_treeNodes b !! parentKey id node = None) as Hk
      by by apply (treeNodes_None trace true nodes l1 l2 Hl1 b Hb).
    by rewrite Hk in Hp.
Qed.

End BuildOutcome.

Section Placement.
Context `{Color}.
Variables (trace : string) (recentRequest : bool) (nodes : nodeMap).
Variables (l1 l2 : list (nodeId * nodeDetails)).
Hypothesis Hl1 : l1 ≡ₚ map_to_list nodes.
Hypothesis Hl2 : l2 ≡ₚ map_to_list nodes.
Variable b : built.
Hypothesis Hbuild : buildTreeIn trace recentRequest l1 l2 = Some b.

(** [orphaned] itself hangs nowhere. *)
Lemma orphaned_not_child p : ~ child (b_heap b) p 1.
Proof.
  intros Hc.
  apply (Items_are_records trace recentRequest nodes l1 l2 Hl1 Hl2 b Hbuild)
    in Hc as (id & node & a & _ & Ha & [= <-]).
  exact (treeNodes_not_orphaned trace recentRequest nodes l1 l2 Hl1 b Hbuild
           id Ha).
Qed.

Lemma orphaned_unreachable : ~ reachable (b_heap b) 0 1.
Proof.
  intros Hr. apply rtc_inv_r in Hr as [?|(q & _ & Hc)]; [done|].
  by eapply orphaned_not_child.
Qed.

(** The node of a record hangs below exactly one node. *)
Lemma placed_once id node a :
  nodes !! id = Some node -> b_treeNodes b !! id = Some a ->
  exists p,
    parentNodeOf recentRequest 1 (b_treeNodes b) id node = Some p /\
    forall q, Some a ∈ Items (b_heap b) q <-> q = p.
Proof.
  intros Hid Ha.
  destruct (built_parent trace recentRequest nodes l1 l2 Hl2 b Hbuild
              id node Hid) as [p Hp].
  exists p. split; [done|]. intros q.
  rewrite (placed trace recentRequest nodes l1 l2 Hl1 Hl2 b Hbuild
             id node a q Hid Ha).
  rewrite Hp. split; congruence.
Qed.

End Placement.

(** ** Facts about [fetchTrace] *)

Lemma addResponses_truncated (rs : list response) (nodes nodes' : nodeMap) :
  Exists truncated rs -> addResponses rs nodes <> FetchOk nodes'.
Proof.
  revert nodes.
  induction rs as [|r rs IH]; intros nodes Hex; [by apply Exists_nil in Hex|].
  simpl. destruct (Error r); [done|].
  destruct (decide (truncated r)) as [|Hfull]; [done|].
  apply Exists_cons in Hex as [?|Hex]; [done|].
  destruct (addHits (Hits r) nodes); [by apply IH|done..].
Qed.

Lemma addHits_no_panic (hits : list hit) (nodes : nodeMap) (msg : string) :
  (forall s, GoodSource s ∈ hits -> is_Some (nodeOfSource s)) ->
  addHits hits nodes <> FetchPanic msg.
Proof.
  revert nodes.
  induction hits as [|[err|s] hits IH]; intros nodes Hdocs; simpl; [done..|].
  destruct (Hdocs s) as [[id details] ->]; [by left|].
  apply IH. intros s' Hs'. apply Hdocs. by right.
Qed.

Lemma addResponses_no_panic (rs : list response) (nodes : nodeMap)
    (msg : string) :
  (forall r s, r ∈ rs -> GoodSource s ∈ Hits r -> is_Some (nodeOfSource s)) ->
  addResponses rs nodes <> FetchPanic msg.
Proof.
  revert nodes.
  induction rs as [|r rs IH]; intros nodes Hdocs; simpl; [done|].
  destruct (Error r); [done|].
  destruct (decide (truncated r)); [done|].
  destruct (addHits (Hits r) nodes) as [nodes'|err|msg'] eqn:Hhits.
  - apply IH. intros r' s Hr'. apply Hdocs. by right.
  - done.
  - exfalso. eapply addHits_no_panic; [|exact Hhits].
    intros s. apply Hdocs. by left.
Qed.

(** ** Facts about the polling loop *)

Section ControllerFacts.
Context `{Color}.
Variables (trace : string) (deadline : Z) (E : env).

Lemma mainLoop_S recentRequest fuel lastNodeCount k :
  mainLoop trace recentRequest deadline E (S fuel) lastNodeCount k =
  if recentRequest && negb (clock E k <? deadline)%Z
  then ([], DeadlineExit)
  else
    let slept := if recentRequest then [ESleep] else [] in
    match fetchTrace (backend E k) with
    | FetchErr err => (slept ++ [EFetchFailed], Fatal err)
    | FetchPanic msg => (slept ++ [EFetchFailed], Panicked msg)
    | FetchOk nodes =>
        let count := Z.of_nat (size nodes) in
        if (count =? lastNodeCount)%Z
        then prepend (slept ++ [EFetch count])
               (mainLoop trace recentRequest deadline E fuel lastNodeCount
                         (S k))
        else
          match buildTree trace recentRequest nodes with
          | None =>
              prepend (slept ++ [EFetch count; ERestart])
                (mainLoop trace recentRequest deadline E fuel count (S k))
          | Some b =>
              if recentRequest
              then prepend (slept ++ [EFetch count; ERender b])
                     (mainLoop trace recentRequest deadline E fuel count
                               (S k))
              else (slept ++ [EFetch count; ERender b], LookupExit)
          end
    end.
Proof. reflexivity. Qed.

(** The events of a polling run have the shape [pollTrace]. *)
Lemma mainLoop_pollTrace fuel lastNodeCount k :
  pollTrace deadline E k
    (mainLoop trace true deadline E fuel lastNodeCount k).1.
Proof.
  revert lastNodeCount k.
  induction fuel as [|fuel IH]; intros lastNodeCount k.
  - constructor.
  - rewrite mainLoop_S. simpl.
    destruct (clock E k <? deadline)%Z eqn:Hclock; simpl; [|constructor].
    apply Z.ltb_lt in Hclock.
    destruct (fetchTrace (backend E k)) as [nodes|err|msg]; simpl;
      [|by constructor..].
    destruct (Z.of_nat (size nodes) =? lastNodeCount)%Z; simpl.
    + by constructor.
    + destruct (buildTree trace true nodes) as [b|]; simpl; by constructor.
Qed.

(** A lookup of an existing trace never sleeps and never jumps back. *)
Lemma mainLoop_lookup_events fuel lastNodeCount k e :
  e ∈ (mainLoop trace false deadline E fuel lastNodeCount k).1 ->
  e <> ESleep /\ e <> ERestart.
Proof.
  revert lastNodeCount k.
  induction fuel as [|fuel IH]; intros lastNodeCount k.
  - simpl. by intros ?%elem_of_nil.
  - rewrite mainLoop_S. simpl.
    destruct (fetchTrace (backend E k)) as [nodes|err|msg]; simpl.
    + destruct (Z.of_nat (size nodes) =? lastNodeCount)%Z; simpl.
      * intros [->|Hin]%elem_of_cons; [done|]. by eapply IH.
      * destruct (buildTreeIn_lookup_total trace
                    (map_to_list nodes) (map_to_list nodes)) as [b Hb].
        unfold buildTree. rewrite Hb. simpl.
        intros [->|[->|?%elem_of_nil]%elem_of_cons]%elem_of_cons; done.
    + intros [->|?%elem_of_nil]%elem_of_cons; done.
    + intros [->|?%elem_of_nil]%elem_of_cons; done.
Qed.

End ControllerFacts.

(** In a polling trace a fetch comes directly after a sleep. *)
Lemma pollTrace_fetch deadline E k evs :
  pollTrace deadline E k evs ->
  forall i e, evs !! i = Some e -> isFetch e = true ->
  exists j, i = S j /\ evs !! j = Some ESleep.
Proof.
  induction 1 as [k|k Hk|k count evs Hk Hevs IH|k count evs Hk Hevs IH
                 |k count b evs Hk Hevs IH]; intros i e Hi He.
  - done.
  - destruct i as [|[|i]]; simplify_eq/=. by exists 0.
  - destruct i as [|[|i]]; simplify_eq/=; [by exists 0|].
    destruct (IH i e Hi He) as (j & -> & Hj). by exists (S (S j)).
  - destruct i as [|[|[|i]]]; simplify_eq/=; [by exists 0|].
    destruct (IH i e Hi He) as (j & -> & Hj). by exists (S (S (S j))).
  - destruct i as [|[|[|i]]]; simplify_eq/=; [by exists 0|].
    destruct (IH i e Hi He) as (j & -> & Hj). by exists (S (S (S j))).
Qed.

Lemma pollTrace_head deadline E k evs :
  pollTrace deadline E k evs -> evs !! 0 = None \/ evs !! 0 = Some ESleep.
Proof. destruct 1; auto. Qed.

(** In a polling trace the event after a restart, if any, is a sleep. *)
Lemma pollTrace_restart deadline E k evs :
  pollTrace deadline E k evs ->
  forall i, evs !! i = Some ERestart ->
  evs !! S i = None \/ evs !! S i = Some ESleep.
Proof.
  induction 1 as [k|k Hk|k count evs Hk Hevs IH|k count evs Hk Hevs IH
                 |k count b evs Hk Hevs IH]; intros i Hi.
  - done.
  - by destruct i as [|[|i]].
  - destruct i as [|[|i]]; simplify_eq/=. by apply IH.
  - destruct i as [|[|[|i]]]; simplify_eq/=.
    + by eapply pollTrace_head.
    + by apply IH.
  - destruct i as [|[|[|i]]]; simplify_eq/=. by apply IH.
Qed.

(** In a polling trace the [i]-th sleep follows a deadline check that found
    the deadline not reached. *)
Lemma pollTrace_clock deadline E k evs :
  pollTrace deadline E k evs ->
  forall i, k <= i < k + passes evs -> (clock E i < deadline)%Z.
Proof.
  unfold passes.
  induction 1 as [k|k Hk|k count evs Hk Hevs IH|k count evs Hk Hevs IH
                 |k count b evs Hk Hevs IH]; intros i Hi; simpl in *.
  - lia.
  - assert (i = k) as -> by lia. done.
  - destruct (decide (i = k)) as [->|]; [done|]. apply IH. lia.
  - destruct (decide (i = k)) as [->|]; [done|]. apply IH. lia.
  - destruct (decide (i = k)) as [->|]; [done|]. apply IH. lia.
Qed.

Section DeadlineExit.
Context `{Color}.
Variables (trace : string) (deadline : Z) (E : env).

Lemma mainLoop_expired fuel lastNodeCount k :
  (deadline <= clock E k)%Z ->
  mainLoop trace true deadline E (S fuel) lastNodeCount k
    = ([], DeadlineExit).
Proof.
  intros Hk. rewrite mainLoop_S. simpl.
  destruct (Z.ltb_spec (clock E k) deadline) as [?|_]; [lia|done].
Qed.

Lemma mainLoop_deadline_exit fuel lastNodeCount k evs :
  mainLoop trace true deadline E fuel lastNodeCount k = (evs, DeadlineExit) ->
  (deadline <= clock E (k + passes evs))%Z.
Proof.
  revert lastNodeCount k evs.
  induction fuel as [|fuel IH]; intros lastNodeCount k evs Hrun; [done|].
  rewrite mainLoop_S in Hrun. simpl in Hrun.
  destruct (Z.ltb_spec (clock E k) deadline) as [Hk|Hk]; simpl in Hrun.
  - destruct (fetchTrace (backend E k)) as [nodes|err|msg]; [|done..].
    assert (forall count tail,
      prepend (ESleep :: EFetch (Z.of_nat (size nodes)) :: tail)
        (mainLoop trace true deadline E fuel count (S k))
        = (evs, DeadlineExit) ->
      passes tail = 0 ->
      (deadline <= clock E (k + passes evs))%Z) as Hstep.
    { intros count tail Hpre Htail.
      destruct (mainLoop trace true deadline E fuel count (S k))
        as [evs' out] eqn:Hrec.
      unfold prepend in Hpre. simpl in Hpre. injection Hpre as <- ->.
      apply IH in Hrec. unfold passes in *. simpl.
      rewrite List.filter_app, length_app, Htail. simpl.
      by replace (k + S (length (List.filter isSleep evs')))
        with (S k + length (List.filter isSleep evs')) by lia. }
    destruct (Z.of_nat (size nodes) =? lastNodeCount)%Z.
    + by apply (Hstep lastNodeCount []).
    + destruct (buildTree trace true nodes) as [b|].
      * by apply (Hstep (Z.of_nat (size nodes)) [ERender b]).
      * by apply (Hstep (Z.of_nat (size nodes)) [ERestart]).
  - injection Hrun as <-. unfold passes. simpl.
    by replace (k + 0) with k by lia.
Qed.

End DeadlineExit.

(** A lookup whose first fetch returns at least one record builds and
    renders once, and ends. *)
Lemma lookup_renders_once `{Color} (trace : string) (deadline : Z) (E : env)
    (fuel : nat) (nodes : nodeMap) :
  fetchTrace (backend E 0) = FetchOk nodes ->
  nodes <> ∅ ->
  exists b,
    buildTree trace false nodes = Some b /\
    run trace false deadline E (S fuel)
      = ([EFetch (Z.of_nat (size nodes)); ERender b], LookupExit).
Proof.
  intros Hfetch Hne.
  destruct (buildTreeIn_lookup_total trace
              (map_to_list nodes) (map_to_list nodes)) as [b Hb].
  exists b. split; [done|].
  unfold run. rewrite mainLoop_S. simpl. rewrite Hfetch.
  assert (size nodes <> 0) as Hsize by by intros ?%map_size_empty_inv.
  destruct (Z.eqb_spec (Z.of_nat (size nodes)) 0) as [?|_]; [lia|].
  unfold buildTree. by rewrite Hb.
Qed.

(** ** Facts about the colours *)

Lemma length_string_app (s1 s2 : string) :
  String.length (s1 +:+ s2) = String.length s1 + String.length s2.
Proof. induction s1 as [|c s1 IH]; simpl; [done|]. by rewrite IH. Qed.

(** On a terminal a highlighted label differs from the plain one. *)
Lemma ansiColor_distinguishes (s : string) : @CyanString ansiColor s <> s.
Proof.
  intros Heq. apply (f_equal String.length) in Heq. simpl in Heq.
  rewrite !length_string_app in Heq. simpl in Heq. lia.
Qed.

(** The labels of [rooted], as printed on a terminal. *)
Example rooted_labels :
  text <$> b_heap (lookupOf rooted) =
  [ ""; esc +:+ "[31m<orphaned>" +:+ esc +:+ "[0m"; "SELECT (svc-a)";
    esc +:+ "[36mGET / (svc-a) => 200" +:+ esc +:+ "[0m" ].
Proof. vm_compute. reflexivity. Qed.

(** In [lateParent] the first build jumps back, the second is rendered, and
    the run polls on until the deadline. *)
Example lateParent_run :
  isRender <$> (@run ansiColor "T" true (seconds 30) lateParent 10).1
    = [false; false; false; false; false; true;
       false; false; false; false; false; false; false; false] /\
  (@run ansiColor "T" true (seconds 30) lateParent 10).2 = DeadlineExit.
Proof. split; vm_compute; reflexivity. Qed.

(** In [cutShort] the error is the one of line 281. *)
Example cutShort_run :
  @run ansiColor "T" true (seconds 30) cutShort 10
    = ([ESleep; EFetchFailed], Fatal "too many hits").
Proof. vm_compute. reflexivity. Qed.

(** ** The claims *)

(** C1, as the code has it: in every build that runs to its end, the node
    of a record hangs below exactly one node [p]: below [orphaned] when the
    lookup of its parent key fails, below the node found otherwise.  So the
    attached nodes and the orphan collection are disjoint and cover all
    records.  A node is reachable from the root exactly when the node it
    hangs from is, and a node in the orphan collection never is. *)
Theorem C1_placement `{Color} (trace : string) (recentRequest : bool)
    (nodes : nodeMap) (l1 l2 : list (nodeId * nodeDetails)) (b : built)
    (id : nodeId) (node : nodeDetails) :
  l1 ≡ₚ map_to_list nodes -> l2 ≡ₚ map_to_list nodes ->
  buildTreeIn trace recentRequest l1 l2 = Some b ->
  nodes !! id = Some node ->
  exists a p,
    b_treeNodes b !! id = Some a /\
    (forall q, Some a ∈ Items (b_heap b) q <-> q = p) /\
    match b_treeNodes b !! parentKey id node with
    | Some q => p = q /\ p <> b_orphaned b
    | None => p = b_orphaned b
    end /\
    (reachable (b_heap b) (b_root b) a <-> reachable (b_heap b) (b_root b) p) /\
    (p = b_orphaned b -> ~ reachable (b_heap b) (b_root b) a).
Proof.
  intros Hl1 Hl2 Hbuild Hid.
  destruct (treeNodes_record trace recentRequest nodes l1 l2 Hl1 b Hbuild
              id node Hid) as (i & Hi & Ha).
  destruct (placed_once trace recentRequest nodes l1 l2 Hl1 Hl2 b Hbuild
              id node _ Hid Ha) as (p & Hp & Honce).
  pose proof (built_root trace recentRequest l1 l2 b Hbuild) as Hroot.
  pose proof (built_orphaned trace recentRequest l1 l2 b Hbuild) as Horph.
  rewrite Hroot, Horph.
  exists (2 + i), p. split; [done|]. split; [done|].
  split; [|split].
  - unfold parentNodeOf in Hp.
    destruct (b_treeNodes b !! parentKey id node) as [q|] eqn:Hq.
    + injection Hp as ->. split; [done|]. intros ->.
      exact (treeNodes_not_orphaned trace recentRequest nodes l1 l2 Hl1 b
               Hbuild _ Hq).
    + destruct recentRequest; [done|]. by injection Hp as <-.
  - split.
    + intros Hr. apply rtc_inv_r in Hr as [Heq|(q & Hr & Hc)]; [lia|].
      by apply Honce in Hc as ->.
    + intros Hr. eapply rtc_r; [exact Hr|]. by apply Honce.
  - intros -> Hr.
    apply rtc_inv_r in Hr as [Heq|(q & Hr & Hc)]; [lia|].
    apply Honce in Hc as ->.
    exact (orphaned_unreachable trace recentRequest nodes l1 l2 Hl1 Hl2 b
             Hbuild Hr).
Qed.

Lemma C1_placement_witness :
  exists a p,
    b_treeNodes (lookupOf rooted) !! NodeId "T" "s1" = Some a /\
    (forall q, Some a ∈ Items (b_heap (lookupOf rooted)) q <-> q = p) /\
    match b_treeNodes (lookupOf rooted)
            !! parentKey (NodeId "T" "s1")
                 (NodeDetails "t1" "SELECT" "db" "svc-a" "" false) with
    | Some q => p = q /\ p <> b_orphaned (lookupOf rooted)
    | None => p = b_orphaned (lookupOf rooted)
    end /\
    (reachable (b_heap (lookupOf rooted)) (b_root (lookupOf rooted)) a <->
     reachable (b_heap (lookupOf rooted)) (b_root (lookupOf rooted)) p) /\
    (p = b_orphaned (lookupOf rooted) ->
     ~ reachable (b_heap (lookupOf rooted)) (b_root (lookupOf rooted)) a).
Proof.
  apply (@C1_placement ansiColor "T" false rooted
           (map_to_list rooted) (map_to_list rooted)).
  - reflexivity.
  - reflexivity.
  - vm_compute. reflexivity.
  - vm_compute. reflexivity.
Defined.

(** C1 fails as stated: the two records of [cyclic] resolve each other as
    parent, so both are attached (neither is in the orphan collection), and
    neither is reachable from the root, which has no items at all. *)
Lemma C1_counterexample :
  @buildTree ansiColor "T" false cyclic = Some (lookupOf cyclic) /\
  b_treeNodes (lookupOf cyclic) !! NodeId "T" "a" = Some 2 /\
  b_treeNodes (lookupOf cyclic) !! NodeId "T" "b" = Some 3 /\
  Items (b_heap (lookupOf cyclic)) 3 = [Some 2] /\
  Items (b_heap (lookupOf cyclic)) 2 = [Some 3] /\
  Items (b_heap (lookupOf cyclic)) (b_orphaned (lookupOf cyclic)) = [] /\
  ~ reachable (b_heap (lookupOf cyclic)) (b_root (lookupOf cyclic)) 2 /\
  ~ reachable (b_heap (lookupOf cyclic)) (b_root (lookupOf cyclic)) 3.
Proof.
  repeat split; try (vm_compute; reflexivity).
  - intros Hr. apply rtc_inv in Hr as [Heq|(q & Hc & _)].
    + vm_compute in Heq. discriminate.
    + unfold child in Hc. vm_compute in Hc. by apply elem_of_nil in Hc.
  - intros Hr. apply rtc_inv in Hr as [Heq|(q & Hc & _)].
    + vm_compute in Heq. discriminate.
    + unfold child in Hc. vm_compute in Hc. by apply elem_of_nil in Hc.
Qed.

(** C2, as the code has it: both loops are separate, so when the second
    loop looks up the parent of a record that names itself, the node of the
    record is already in [treeNodes]; the lookup resolves and the record is
    attached below its own node, never to [orphaned]. *)
Theorem C2_self_parent `{Color} (trace : string) (recentRequest : bool)
    (nodes : nodeMap) (l1 l2 : list (nodeId * nodeDetails)) (b : built)
    (id : nodeId) (node : nodeDetails) :
  l1 ≡ₚ map_to_list nodes -> l2 ≡ₚ map_to_list nodes ->
  buildTreeIn trace recentRequest l1 l2 = Some b ->
  nodes !! id = Some node ->
  parentID node = spanID id ->
  exists a,
    b_treeNodes b !! id = Some a /\
    b_treeNodes b !! parentKey id node = Some a /\
    Some a ∈ Items (b_heap b) a /\
    Some a ∉ Items (b_heap b) (b_orphaned b).
Proof.
  intros Hl1 Hl2 Hbuild Hid Hself.
  destruct (treeNodes_record trace recentRequest nodes l1 l2 Hl1 b Hbuild
              id node Hid) as (i & Hi & Ha).
  assert (parentKey id node = id) as Hkey.
  { unfold parentKey. rewrite Hself. by destruct id. }
  pose proof (placed trace recentRequest nodes l1 l2 Hl1 Hl2 b Hbuild
                id node (2 + i)) as Hplaced.
  rewrite (built_orphaned trace recentRequest l1 l2 b Hbuild).
  exists (2 + i). rewrite Hkey. repeat split; try done.
  - apply Hplaced; try done. unfold parentNodeOf. by rewrite Hkey, Ha.
  - intros Hin. apply Hplaced in Hin; try done.
    unfold parentNodeOf in Hin. rewrite Hkey, Ha in Hin. by injection Hin.
Qed.

Lemma C2_self_parent_witness :
  exists a,
    b_treeNodes (lookupOf selfParented) !! NodeId "T" "a" = Some a /\
    b_treeNodes (lookupOf selfParented)
      !! parentKey (NodeId "T" "a")
           (NodeDetails "a" "SELECT" "db" "svc-a" "" false) = Some a /\
    Some a ∈ Items (b_heap (lookupOf selfParented)) a /\
    Some a ∉ Items (b_heap (lookupOf selfParented))
               (b_orphaned (lookupOf selfParented)).
Proof.
  apply (@C2_self_parent ansiColor "T" false selfParented
           (map_to_list selfParented) (map_to_list selfParented)).
  - reflexivity.
  - reflexivity.
  - vm_compute. reflexivity.
  - vm_compute. reflexivity.
  - reflexivity.
Defined.

(** C2 fails as stated: the only record of [selfParented] names itself as
    parent; the orphan collection stays empty and the node is its own item. *)
Lemma C2_counterexample :
  @buildTree ansiColor "T" false selfParented = Some (lookupOf selfParented) /\
  b_treeNodes (lookupOf selfParented) !! NodeId "T" "a" = Some 2 /\
  Items (b_heap (lookupOf selfParented))
        (b_orphaned (lookupOf selfParented)) = [] /\
  Items (b_heap (lookupOf selfParented)) 2 = [Some 2].
Proof. repeat split; vm_compute; reflexivity. Qed.

(** C3, where the code departs from it: a lookup ([recentRequest] unset)
    of a trace for which every fetch returns no record.  The count [0]
    equals the initial [lastNodeCount], the inner loop has no way out but a
    changed count and, without [recentRequest], neither sleeps nor checks a
    deadline: whatever the fuel, the run is still fetching, and has built
    and rendered nothing. *)
Theorem C3_lookup_of_empty_trace `{Color} (trace : string) (deadline : Z)
    (now : nat -> Z) (fuel : nat) :
  run trace false deadline (Env (fun _ => noHits) now) fuel
    = (replicate fuel (EFetch 0), OutOfFuel) /\
  renders (run trace false deadline (Env (fun _ => noHits) now) fuel).1 = 0.
Proof.
  unfold run.
  assert (forall k,
    mainLoop trace false deadline (Env (fun _ => noHits) now) fuel 0 k
    = (replicate fuel (EFetch 0), OutOfFuel)) as Hloop.
  { induction fuel as [|fuel IH]; intros k; [done|].
    rewrite mainLoop_S. simpl. rewrite IH. reflexivity. }
  rewrite Hloop. split; [done|]. simpl. clear Hloop.
  unfold renders. by induction fuel as [|fuel IH].
Qed.

(** C4, as the code has it: while polling, every pass of the loop - the
    first one, one after an unchanged count, one after a restart, one
    after a render - checks the deadline, sleeps, and only then fetches.
    So every fetch comes directly after a sleep, the event after a restart
    is a sleep, and each sleep follows a check that found the deadline not
    reached. *)
Theorem C4_sleep_before_every_fetch `{Color} (trace : string) (deadline : Z)
    (E : env) (fuel : nat) (lastNodeCount : Z) (k : nat) :
  let evs := (mainLoop trace true deadline E fuel lastNodeCount k).1 in
  pollTrace deadline E k evs /\
  (forall i e, evs !! i = Some e -> isFetch e = true ->
     exists j, i = S j /\ evs !! j = Some ESleep) /\
  (forall i, evs !! i = Some ERestart ->
     evs !! S i = None \/ evs !! S i = Some ESleep) /\
  (forall i, k <= i < k + passes evs -> (clock E i < deadline)%Z).
Proof.
  pose proof (mainLoop_pollTrace trace deadline E fuel lastNodeCount k)
    as Hshape.
  simpl. split; [done|]. split; [|split].
  - by eapply pollTrace_fetch.
  - by eapply pollTrace_restart.
  - by eapply pollTrace_clock.
Qed.

(** C4 fails as stated: in [lateParent] the first fetch returns one record
    whose parent is missing.  The run sleeps before that first fetch, when
    no count has been compared yet, and after the restart it sleeps again
    before it fetches the three records of the second pass. *)
Lemma C4_counterexample :
  take 5 (@run ansiColor "T" true (seconds 30) lateParent 10).1
    = [ESleep; EFetch 1; ERestart; ESleep; EFetch 3].
Proof. vm_compute. reflexivity. Qed.

(** C5, as the code has it: while polling, the run leaves by the deadline
    exit at the first deadline check that finds the deadline reached,
    whether or not a build has been rendered before.  All earlier checks
    found the deadline not reached, and when the first check already finds
    it reached the run ends with no event at all. *)
Theorem C5_deadline_exit `{Color} (trace : string) (deadline : Z) (E : env)
    (fuel : nat) (lastNodeCount : Z) (k : nat) (evs : list event) :
  mainLoop trace true deadline E fuel lastNodeCount k = (evs, DeadlineExit) ->
  (deadline <= clock E (k + passes evs))%Z /\
  (forall i, k <= i < k + passes evs -> (clock E i < deadline)%Z) /\
  ((deadline <= clock E k)%Z -> evs = [] /\ renders evs = 0).
Proof.
  intros Hrun. split; [|split].
  - by eapply mainLoop_deadline_exit.
  - pose proof (mainLoop_pollTrace trace deadline E fuel lastNodeCount k)
      as Hshape.
    rewrite Hrun in Hshape. by eapply pollTrace_clock.
  - intros Hk. destruct fuel as [|fuel]; [done|].
    rewrite mainLoop_expired in Hrun by done. by injection Hrun as <-.
Qed.

Lemma C5_deadline_exit_witness :
  (seconds 30 <= clock silent (0 + passes sixQuietPasses))%Z /\
  (forall i, 0 <= i < 0 + passes sixQuietPasses ->
     (clock silent i < seconds 30)%Z) /\
  ((seconds 30 <= clock silent 0)%Z ->
     sixQuietPasses = [] /\ renders sixQuietPasses = 0).
Proof.
  apply (@C5_deadline_exit ansiColor "T" (seconds 30) silent 10 0 0
           sixQuietPasses).
  vm_compute. reflexivity.
Defined.

(** C5 fails as stated: polling the trace of [silent] for thirty seconds
    makes six passes, each of which fetches no record, and then leaves by
    the deadline exit without a single build or render. *)
Lemma C5_counterexample :
  @run ansiColor "T" true (seconds 30) silent 10
    = (sixQuietPasses, DeadlineExit) /\
  renders (@run ansiColor "T" true (seconds 30) silent 10).1 = 0.
Proof. split; vm_compute; reflexivity. Qed.

(** C6, as the code has it: the parent of a record with an empty
    [parentID] is looked up under the record's own trace id, so in a build
    that runs to its end the record hangs directly below the root exactly
    when its trace id is the queried one and no record has taken the root
    key [(traceID, "")] for itself. *)
Theorem C6_empty_parent `{Color} (trace : string) (recentRequest : bool)
    (nodes : nodeMap) (l1 l2 : list (nodeId * nodeDetails)) (b : built)
    (id : nodeId) (node : nodeDetails) :
  l1 ≡ₚ map_to_list nodes -> l2 ≡ₚ map_to_list nodes ->
  buildTreeIn trace recentRequest l1 l2 = Some b ->
  nodes !! id = Some node ->
  parentID node = "" ->
  exists a,
    b_treeNodes b !! id = Some a /\
    (Some a ∈ Items (b_heap b) (b_root b) <->
     traceID id = trace /\ nodes !! rootKey trace = None).
Proof.
  intros Hl1 Hl2 Hbuild Hid Hparent.
  destruct (treeNodes_record trace recentRequest nodes l1 l2 Hl1 b Hbuild
              id node Hid) as (i & Hi & Ha).
  exists (2 + i). split; [done|].
  rewrite (built_root trace recentRequest l1 l2 b Hbuild).
  rewrite (placed trace recentRequest nodes l1 l2 Hl1 Hl2 b Hbuild
             id node (2 + i) 0 Hid Ha).
  pose proof (treeNodes_root trace recentRequest nodes l1 l2 Hl1 b Hbuild
                (parentKey id node)) as Hroot.
  unfold parentNodeOf.
  assert (parentKey id node = rootKey trace <-> traceID id = trace) as Hkey.
  { unfold parentKey, rootKey. rewrite Hparent. split; [by intros [=]|].
    by intros ->. }
  destruct (b_treeNodes b !! parentKey id node) as [q|] eqn:Hq.
  - split.
    + intros [= ->]. destruct Hroot as [Hroot _].
      destruct Hroot as [Hk Hnone]; [done|].
      split; [by apply Hkey|]. by rewrite <- Hk.
    + intros [Htrace Hnone]. apply Hkey in Htrace.
      destruct Hroot as [_ Hroot]. apply Hroot.
      split; [done|]. by rewrite Htrace.
  - apply (treeNodes_None trace recentRequest nodes l1 l2 Hl1 b Hbuild)
      in Hq as [Hne _].
    split.
    + by destruct recentRequest.
    + intros [Htrace _]. by apply Hkey in Htrace.
Qed.

Lemma C6_empty_parent_witness :
  exists a,
    b_treeNodes (lookupOf rooted) !! NodeId "T" "t1" = Some a /\
    (Some a ∈ Items (b_heap (lookupOf rooted)) (b_root (lookupOf rooted)) <->
     traceID (NodeId "T" "t1") = "T" /\ rooted !! rootKey "T" = None).
Proof.
  apply (@C6_empty_parent ansiColor "T" false rooted
           (map_to_list rooted) (map_to_list rooted) (lookupOf rooted)
           (NodeId "T" "t1")
           (NodeDetails "" "GET /" "request" "svc-a" "200" true)).
  - reflexivity.
  - reflexivity.
  - vm_compute. reflexivity.
  - vm_compute. reflexivity.
  - reflexivity.
Defined.

(** C6 fails as stated: the record of [foreign] has an empty [parentID] but
    belongs to trace [U]; in a lookup of trace [T] its parent key [(U, "")]
    is not in [treeNodes], the root gets no item and the record goes to
    [orphaned]. *)
Lemma C6_counterexample :
  foreign !! NodeId "U" "x"
    = Some (NodeDetails "" "GET /" "request" "svc-a" "200" true) /\
  @buildTree ansiColor "T" false foreign = Some (lookupOf foreign) /\
  b_treeNodes (lookupOf foreign) !! NodeId "U" "x" = Some 2 /\
  Items (b_heap (lookupOf foreign)) (b_root (lookupOf foreign)) = [] /\
  Items (b_heap (lookupOf foreign)) (b_orphaned (lookupOf foreign))
    = [Some 2].
Proof. repeat split; vm_compute; reflexivity. Qed.

(** C7: in a build that runs to its end, a record is in [rootTransactions]
    exactly when it is a transaction and its node is an item of the root;
    and [rootTransactions] holds records only. *)
Theorem C7_root_transactions `{Color} (trace : string) (recentRequest : bool)
    (nodes : nodeMap) (l1 l2 : list (nodeId * nodeDetails)) (b : built) :
  l1 ≡ₚ map_to_list nodes -> l2 ≡ₚ map_to_list nodes ->
  buildTreeIn trace recentRequest l1 l2 = Some b ->
  (forall id node, nodes !! id = Some node ->
     id ∈ b_rootTransactions b <->
     transaction node = true /\
     exists a, b_treeNodes b !! id = Some a /\
               Some a ∈ Items (b_heap b) (b_root b)) /\
  (forall id, id ∈ b_rootTransactions b -> is_Some (nodes !! id)).
Proof.
  intros Hl1 Hl2 Hbuild.
  rewrite (built_rootTransactions trace recentRequest l1 l2 b Hbuild).
  rewrite (built_root trace recentRequest l1 l2 b Hbuild).
  unfold rootTransactionsOf. split.
  - intros id node Hid.
    destruct (treeNodes_record trace recentRequest nodes l1 l2 Hl1 b Hbuild
                id node Hid) as (i & Hi & Ha).
    pose proof (placed trace recentRequest nodes l1 l2 Hl1 Hl2 b Hbuild
                  id node (2 + i) 0 Hid Ha) as Hplaced.
    rewrite list_elem_of_fmap. split.
    + intros ([id' node'] & -> & Hin). simpl in *.
      apply list_elem_of_filter in Hin as [[Htx Hparent] Hin]. simpl in *.
      apply (elem_of_order2 nodes l2 Hl2) in Hin.
      assert (node' = node) as -> by congruence.
      split; [done|]. exists (2 + i). split; [done|]. by apply Hplaced.
    + intros (Htx & a & Ha' & Hin).
      assert (a = 2 + i) as -> by congruence.
      exists (id, node). split; [done|].
      apply list_elem_of_filter. split.
      * split; [done|]. by apply Hplaced.
      * by apply (elem_of_order2 nodes l2 Hl2).
  - intros id ([id' node] & -> & Hin)%list_elem_of_fmap.
    apply list_elem_of_filter in Hin as [_ Hin].
    apply (elem_of_order2 nodes l2 Hl2) in Hin. by eexists.
Qed.

Lemma C7_root_transactions_witness :
  (forall id node, rooted !! id = Some node ->
     id ∈ b_rootTransactions (lookupOf rooted) <->
     transaction node = true /\
     exists a, b_treeNodes (lookupOf rooted) !! id = Some a /\
               Some a ∈ Items (b_heap (lookupOf rooted))
                          (b_root (lookupOf rooted))) /\
  (forall id, id ∈ b_rootTransactions (lookupOf rooted) ->
     is_Some (rooted !! id)).
Proof.
  apply (@C7_root_transactions ansiColor "T" false rooted
           (map_to_list rooted) (map_to_list rooted)).
  - reflexivity.
  - reflexivity.
  - vm_compute. reflexivity.
Defined.

(** C8: when one of the responses of a multi-search reports more hits than
    it returned, [fetchTrace] returns no record set: it returns an error
    (unless a document that is neither span nor transaction made it panic
    before), and [main] ends there, without building or rendering. *)
Theorem C8_truncated_fetch_is_fatal `{Color} (trace : string)
    (recentRequest : bool) (deadline : Z) (E : env) (fuel : nat)
    (lastNodeCount : Z) (k : nat) (rs : list response) :
  backend E k = MSearchResponses rs ->
  Exists truncated rs ->
  (recentRequest = true -> (clock E k < deadline)%Z) ->
  (forall nodes, fetchTrace (backend E k) <> FetchOk nodes) /\
  ((forall r s, r ∈ rs -> GoodSource s ∈ Hits r -> is_Some (nodeOfSource s)) ->
   exists err, fetchTrace (backend E k) = FetchErr err) /\
  exists msg,
    let evs := (if recentRequest then [ESleep] else []) ++ [EFetchFailed] in
    mainLoop trace recentRequest deadline E (S fuel) lastNodeCount k
      = (evs, Fatal msg) \/
    mainLoop trace recentRequest deadline E (S fuel) lastNodeCount k
      = (evs, Panicked msg).
Proof.
  intros Hbackend Htrunc Hclock.
  assert (forall nodes, fetchTrace (backend E k) <> FetchOk nodes) as Hfail.
  { intros nodes. rewrite Hbackend. simpl.
    by apply addResponses_truncated. }
  split; [done|]. split.
  - intros Hdocs.
    destruct (fetchTrace (backend E k)) as [nodes|err|msg] eqn:Hfetch.
    + by destruct (Hfail nodes).
    + by exists err.
    + rewrite Hbackend in Hfetch. simpl in Hfetch.
      by apply addResponses_no_panic in Hfetch.
  - rewrite mainLoop_S.
    assert (recentRequest && negb (clock E k <? deadline)%Z = false) as ->.
    { destruct recentRequest; [|done]. simpl.
      destruct (Z.ltb_spec (clock E k) deadline) as [|?]; [done|].
      specialize (Hclock eq_refl). lia. }
    simpl.
    destruct (fetchTrace (backend E k)) as [nodes|err|msg].
    + by destruct (Hfail nodes).
    + exists err. by left.
    + exists msg. by right.
Qed.

Lemma C8_truncated_fetch_is_fatal_witness :
  (forall nodes, fetchTrace (backend cutShort 0) <> FetchOk nodes) /\
  ((forall r s,
      r ∈ [Response None 1 [transactionT1]; Response None 2 [spanS1]] ->
      GoodSource s ∈ Hits r -> is_Some (nodeOfSource s)) ->
   exists err, fetchTrace (backend cutShort 0) = FetchErr err) /\
  exists msg,
    let evs := (if true then [ESleep] else []) ++ [EFetchFailed] in
    @mainLoop ansiColor "T" true (seconds 30) cutShort 1 0 0
      = (evs, Fatal msg) \/
    @mainLoop ansiColor "T" true (seconds 30) cutShort 1 0 0
      = (evs, Panicked msg).
Proof.
  apply (@C8_truncated_fetch_is_fatal ansiColor "T" true (seconds 30)
           cutShort 0 0 0
           [Response None 1 [transactionT1]; Response None 2 [spanS1]]).
  - reflexivity.
  - apply Exists_cons_tl, Exists_cons_hd. unfold truncated. simpl. lia.
  - intros _. vm_compute. reflexivity.
Defined.

(** C9: the node of a record carries, after the whole build, the label made
    of [name (service)], followed by [ => result] exactly when the result is
    not empty, and passed through [color.CyanString] exactly when the record
    is a transaction. *)
Theorem C9_labels `{Color} (trace : string) (recentRequest : bool)
    (nodes : nodeMap) (l1 l2 : list (nodeId * nodeDetails)) (b : built)
    (id : nodeId) (node : nodeDetails) :
  l1 ≡ₚ map_to_list nodes -> l2 ≡ₚ map_to_list nodes ->
  buildTreeIn trace recentRequest l1 l2 = Some b ->
  nodes !! id = Some node ->
  exists a t,
    b_treeNodes b !! id = Some a /\ b_heap b !! a = Some t /\
    let base := name node +:+ " (" +:+ service node +:+ ")" in
    let label := if decide (result node = "") then base
                 else base +:+ " => " +:+ result node in
    (transaction node = true -> text t = CyanString label) /\
    (transaction node = false -> text t = label) /\
    ((forall s, CyanString s <> s) ->
     (text t = CyanString label <-> transaction node = true)).
Proof.
  intros Hl1 Hl2 Hbuild Hid.
  destruct (treeNodes_record trace recentRequest nodes l1 l2 Hl1 b Hbuild
              id node Hid) as (i & Hi & Ha).
  pose proof (built_heap_lookup trace recentRequest l1 l2 b Hbuild (2 + i))
    as Hheap.
  unfold heap0 in Hheap. simpl in Hheap.
  rewrite list_lookup_fmap, Hi in Hheap. simpl in Hheap.
  eexists (2 + i), _. split; [done|]. split; [exact Hheap|].
  simpl. unfold nodeText, plainText.
  assert ((if bool_decide (result node <> "")
           then (name node +:+ " (" +:+ service node +:+ ")")
                  +:+ " => " +:+ result node
           else name node +:+ " (" +:+ service node +:+ ")")
          = (if decide (result node = "")
             then name node +:+ " (" +:+ service node +:+ ")"
             else (name node +:+ " (" +:+ service node +:+ ")")
                    +:+ " => " +:+ result node)) as ->.
  { destruct (decide (result node = "")) as [Hres|Hres].
    - by rewrite bool_decide_eq_false_2 by (by intros ?).
    - by rewrite bool_decide_eq_true_2. }
  destruct (transaction node).
  - split; [done|]. split; [done|]. intros _. by split.
  - split; [done|]. split; [done|]. intros Hcyan. split; [|done].
    intros Heq. symmetry in Heq. by apply Hcyan in Heq.
Qed.

Lemma C9_labels_witness :
  exists a t,
    b_treeNodes (lookupOf rooted) !! NodeId "T" "t1" = Some a /\
    b_heap (lookupOf rooted) !! a = Some t /\
    let base := "GET /" +:+ " (" +:+ "svc-a" +:+ ")" in
    let label := if decide ("200" = "") then base
                 else base +:+ " => " +:+ "200" in
    (true = true -> text t = @CyanString ansiColor label) /\
    (true = false -> text t = label) /\
    ((forall s, @CyanString ansiColor s <> s) ->
     (text t = @CyanString ansiColor label <-> true = true)).
Proof.
  apply (@C9_labels ansiColor "T" false rooted
           (map_to_list rooted) (map_to_list rooted) (lookupOf rooted)
           (NodeId "T" "t1")
           (NodeDetails "" "GET /" "request" "svc-a" "200" true)).
  - reflexivity.
  - reflexivity.
  - vm_compute. reflexivity.
  - vm_compute. reflexivity.
Defined.

(** C10, as the code has it: a record of another trace than the queried
    one, with an empty [parentID], never hangs below the root.  Its parent
    key is [(its traceID, "")]: when no record has that identity the lookup
    fails, so a lookup of an existing trace puts the record into [orphaned]
    and a polling build jumps back; when a record has that identity the
    lookup resolves to the node of that record. *)
Theorem C10_foreign_record `{Color} (trace : string) (nodes : nodeMap)
    (l1 l2 : list (nodeId * nodeDetails)) (id : nodeId) (node : nodeDetails) :
  l1 ≡ₚ map_to_list nodes -> l2 ≡ₚ map_to_list nodes ->
  nodes !! id = Some node ->
  traceID id <> trace ->
  parentID node = "" ->
  (forall recentRequest b a,
     buildTreeIn trace recentRequest l1 l2 = Some b ->
     b_treeNodes b !! id = Some a ->
     Some a ∉ Items (b_heap b) (b_root b)) /\
  (nodes !! NodeId (traceID id) "" = None ->
     buildTreeIn trace true l1 l2 = None /\
     exists b a,
       buildTreeIn trace false l1 l2 = Some b /\
       b_treeNodes b !! parentKey id node = None /\
       b_treeNodes b !! id = Some a /\
       Some a ∈ Items (b_heap b) (b_orphaned b)) /\
  (is_Some (nodes !! NodeId (traceID id) "") ->
     forall recentRequest b a,
       buildTreeIn trace recentRequest l1 l2 = Some b ->
       b_treeNodes b !! id = Some a ->
       exists q,
         b_treeNodes b !! parentKey id node = Some q /\
         Some a ∈ Items (b_heap b) q /\
         Some a ∉ Items (b_heap b) (b_orphaned b)).
Proof.
  intros Hl1 Hl2 Hid Hforeign Hparent.
  assert (parentKey id node = NodeId (traceID id) "") as Hkey
    by (unfold parentKey; by rewrite Hparent).
  assert (parentKey id node <> rootKey trace) as Hne
    by (rewrite Hkey; unfold rootKey; congruence).
  split; [|split].
  - intros recentRequest b a Hbuild Ha Hin.
    rewrite (built_root trace recentRequest l1 l2 b Hbuild) in Hin.
    apply (placed trace recentRequest nodes l1 l2 Hl1 Hl2 b Hbuild
             id node a 0 Hid Ha) in Hin.
    unfold parentNodeOf in Hin.
    destruct (b_treeNodes b !! parentKey id node) as [q|] eqn:Hq.
    + injection Hin as ->.
      by apply (treeNodes_root trace recentRequest nodes l1 l2 Hl1 b Hbuild)
        in Hq as [? _].
    + by destruct recentRequest.
  - intros Hnone. rewrite <- Hkey in Hnone. split.
    + apply (buildTreeIn_restart_iff trace nodes l1 l2 Hl1 Hl2).
      by exists id, node.
    + destruct (buildTreeIn_lookup_total trace l1 l2) as [b Hbuild].
      destruct (treeNodes_record trace false nodes l1 l2 Hl1 b Hbuild
                  id node Hid) as (i & Hi & Ha).
      assert (b_treeNodes b !! parentKey id node = None) as Hq
        by by apply (treeNodes_None trace false nodes l1 l2 Hl1 b Hbuild).
      exists b, (2 + i). repeat split; try done.
      rewrite (built_orphaned trace false l1 l2 b Hbuild).
      apply (placed trace false nodes l1 l2 Hl1 Hl2 b Hbuild
               id node (2 + i) 1 Hid Ha).
      unfold parentNodeOf. by rewrite Hq.
  - intros [other Hother] recentRequest b a Hbuild Ha.
    rewrite <- Hkey in Hother.
    destruct (treeNodes_record trace recentRequest nodes l1 l2 Hl1 b Hbuild
                _ other Hother) as (j & Hj & Hq).
    pose proof (placed trace recentRequest nodes l1 l2 Hl1 Hl2 b Hbuild
                  id node a) as Hplaced.
    exists (2 + j). split; [done|].
    rewrite (built_orphaned trace recentRequest l1 l2 b Hbuild). split.
    + apply Hplaced; try done. unfold parentNodeOf. by rewrite Hq.
    + intros Hin. apply Hplaced in Hin; try done.
      unfold parentNodeOf in Hin. rewrite Hq in Hin. by injection Hin.
Qed.

Lemma C10_foreign_record_witness :
  (forall recentRequest b a,
     @buildTreeIn ansiColor "T" recentRequest
       (map_to_list foreign) (map_to_list foreign) = Some b ->
     b_treeNodes b !! NodeId "U" "x" = Some a ->
     Some a ∉ Items (b_heap b) (b_root b)) /\
  (foreign !! NodeId (traceID (NodeId "U" "x")) "" = None ->
     @buildTreeIn ansiColor "T" true
       (map_to_list foreign) (map_to_list foreign) = None /\
     exists b a,
       @buildTreeIn ansiColor "T" false
         (map_to_list foreign) (map_to_list foreign) = Some b /\
       b_treeNodes b
         !! parentKey (NodeId "U" "x")
              (NodeDetails "" "GET /" "request" "svc-a" "200" true) = None /\
       b_treeNodes b !! NodeId "U" "x" = Some a /\
       Some a ∈ Items (b_heap b) (b_orphaned b)) /\
  (is_Some (foreign !! NodeId (traceID (NodeId "U" "x")) "") ->
     forall recentRequest b a,
       @buildTreeIn ansiColor "T" recentRequest
         (map_to_list foreign) (map_to_list foreign) = Some b ->
       b_treeNodes b !! NodeId "U" "x" = Some a ->
       exists q,
         b_treeNodes b
           !! parentKey (NodeId "U" "x")
                (NodeDetails "" "GET /" "request" "svc-a" "200" true)
           = Some q /\
         Some a ∈ Items (b_heap b) q /\
         Some a ∉ Items (b_heap b) (b_orphaned b)).
Proof.
  apply (@C10_foreign_record ansiColor "T" foreign
           (map_to_list foreign) (map_to_list foreign)
           (NodeId "U" "x")
           (NodeDetails "" "GET /" "request" "svc-a" "200" true)).
  - reflexivity.
  - reflexivity.
  - vm_compute. reflexivity.
  - discriminate.
  - reflexivity.
Defined.

(** C10 fails as stated: the record of [foreignUnnamed] belongs to trace
    [U], has an empty [parentID] and an empty span id.  Its parent key
    [(U, "")] is its own key, so the lookup resolves to its own node: it is
    no orphan in a lookup, and a polling build does not jump back. *)
Lemma C10_counterexample :
  foreignUnnamed !! NodeId "U" ""
    = Some (NodeDetails "" "GET /" "request" "svc-a" "200" true) /\
  @buildTree ansiColor "T" false foreignUnnamed
    = Some (lookupOf foreignUnnamed) /\
  b_treeNodes (lookupOf foreignUnnamed)
    !! parentKey (NodeId "U" "")
         (NodeDetails "" "GET /" "request" "svc-a" "200" true) = Some 2 /\
  Items (b_heap (lookupOf foreignUnnamed))
        (b_orphaned (lookupOf foreignUnnamed)) = [] /\
  Items (b_heap (lookupOf foreignUnnamed)) 2 = [Some 2] /\
  is_Some (@buildTree ansiColor "T" true foreignUnnamed).
Proof.
  repeat split; try (vm_compute; reflexivity).
  vm_compute. by eexists.
Qed.

(** * Further properties of the code *)

(** ** Further facts about [fetchTrace] *)

Lemma addHits_Ok (hits : list hit) (nodes nodes' : nodeMap) :
  addHits hits nodes = FetchOk nodes' <->
  exists kvs, mapM nodeOfHit hits = Some kvs /\ nodes' = insertAll kvs nodes.
Proof.
  revert nodes.
  induction hits as [|[err|s] hits IH]; intros nodes; simpl.
  - split.
    + intros [= <-]. by exists [].
    + by intros (kvs & [= <-] & ->).
  - split; [done|]. by intros (kvs & ? & _).
  - destruct (nodeOfSource s) as [[id details]|] eqn:Hs; simpl.
    + rewrite IH. split.
      * intros (kvs & Hkvs & ->). exists ((id, details) :: kvs).
        by rewrite Hkvs.
      * intros (kvs & Hkvs & ->).
        destruct (mapM nodeOfHit hits) as [kvs'|]; [|done].
        injection Hkvs as <-. by exists kvs'.
    + split; [done|]. by intros (kvs & ? & _).
Qed.

Lemma insertAll_app (kvs1 kvs2 : list (nodeId * nodeDetails))
    (nodes : nodeMap) :
  insertAll (kvs1 ++ kvs2) nodes = insertAll kvs2 (insertAll kvs1 nodes).
Proof. unfold insertAll. by rewrite foldl_app. Qed.

Lemma addResponses_Ok (rs : list response) (nodes nodes' : nodeMap) :
  addResponses rs nodes = FetchOk nodes' <->
  Forall (fun r => Error r = None /\ ~ truncated r) rs /\
  exists kvs,
    mapM nodeOfHit (allHits rs) = Some kvs /\ nodes' = insertAll kvs nodes.
Proof.
  unfold allHits. revert nodes.
  induction rs as [|r rs IH]; intros nodes; simpl.
  - split.
    + intros [= <-]. split; [done|]. by exists [].
    + by intros (_ & kvs & [= <-] & ->).
  - destruct (Error r) as [reason|] eqn:Herr.
    { split; [done|]. intros (Hall & _).
      apply Forall_cons in Hall as [[? _] _]. congruence. }
    destruct (decide (truncated r)) as [Htr|Htr].
    { split; [done|]. intros (Hall & _).
      by apply Forall_cons in Hall as [[_ ?] _]. }
    destruct (addHits (Hits r) nodes) as [nodes1|err|msg] eqn:Hhits.
    + apply addHits_Ok in Hhits as (kvs1 & Hkvs1 & ->).
      rewrite IH. split.
      * intros (Hall & kvs & Hkvs & ->). split; [by constructor|].
        exists (kvs1 ++ kvs). split; [|by rewrite insertAll_app].
        apply mapM_Some, Forall2_app; by apply mapM_Some.
      * intros (Hall & kvs & Hkvs & ->).
        apply Forall_cons in Hall as [_ Hall]. split; [done|].
        apply mapM_Some, Forall2_app_inv_l in Hkvs
          as (k1 & k2 & Hk1 & Hk2 & ->).
        apply mapM_Some in Hk1, Hk2.
        assert (k1 = kvs1) as -> by congruence.
        exists k2. split; [done|]. by rewrite insertAll_app.
    + split; [done|]. intros (_ & kvs & Hkvs & _). exfalso.
      apply mapM_Some, Forall2_app_inv_l in Hkvs
        as (k1 & k2 & Hk1 & _ & _).
      apply mapM_Some in Hk1.
      assert (addHits (Hits r) nodes = FetchOk (insertAll k1 nodes)) as Hok
        by (apply addHits_Ok; by exists k1).
      congruence.
    + split; [done|]. intros (_ & kvs & Hkvs & _). exfalso.
      apply mapM_Some, Forall2_app_inv_l in Hkvs
        as (k1 & k2 & Hk1 & _ & _).
      apply mapM_Some in Hk1.
      assert (addHits (Hits r) nodes = FetchOk (insertAll k1 nodes)) as Hok
        by (apply addHits_Ok; by exists k1).
      congruence.
Qed.

Lemma insertAll_lookup_last (kvs1 kvs2 : list (nodeId * nodeDetails))
    (nodes : nodeMap) (id : nodeId) (details : nodeDetails) :
  id ∉ kvs2.*1 ->
  insertAll (kvs1 ++ (id, details) :: kvs2) nodes !! id = Some details.
Proof.
  intros Hnot. rewrite insertAll_app. simpl.
  generalize (insertAll kvs1 nodes). intros m.
  assert (forall m', m' !! id = Some details ->
            insertAll kvs2 m' !! id = Some details) as Hkeep.
  { clear m. induction kvs2 as [|[id' d'] kvs2 IH]; intros m' Hm'; [done|].
    simpl in *. apply not_elem_of_cons in Hnot as [Hne Hnot].
    apply IH; [done|]. by rewrite lookup_insert_ne. }
  apply Hkeep. by rewrite lookup_insert_eq.
Qed.

Lemma insertAll_lookup_inv (kvs : list (nodeId * nodeDetails))
    (nodes : nodeMap) (id : nodeId) (details : nodeDetails) :
  insertAll kvs nodes !! id = Some details ->
  nodes !! id = Some details \/ (id, details) ∈ kvs.
Proof.
  revert nodes.
  induction kvs as [|[id' d'] kvs IH]; intros nodes Hid; [by left|].
  simpl in Hid. apply IH in Hid as [Hid|Hid]; [|right; by right].
  destruct (decide (id' = id)) as [->|Hne].
  - rewrite lookup_insert_eq in Hid. injection Hid as ->. right. by left.
  - rewrite lookup_insert_ne in Hid by done. by left.
Qed.

Lemma insertAll_size (kvs : list (nodeId * nodeDetails)) (nodes : nodeMap) :
  size (insertAll kvs nodes) <= size nodes + length kvs.
Proof.
  revert nodes.
  induction kvs as [|[id d] kvs IH]; intros nodes; simpl; [lia|].
  etrans; [apply IH|].
  destruct (nodes !! id) eqn:Hid.
  - rewrite map_size_insert_Some by done. lia.
  - rewrite map_size_insert_None by done. lia.
Qed.

Lemma insertAll_size_NoDup (kvs : list (nodeId * nodeDetails))
    (nodes : nodeMap) :
  NoDup kvs.*1 -> (forall id, id ∈ kvs.*1 -> nodes !! id = None) ->
  size (insertAll kvs nodes) = size nodes + length kvs.
Proof.
  revert nodes.
  induction kvs as [|[id d] kvs IH]; intros nodes Hnd Hfresh; simpl; [lia|].
  simpl in Hnd. apply NoDup_cons in Hnd as [Hid Hnd].
  rewrite IH; [| done |].
  - rewrite map_size_insert_None; [lia|]. apply Hfresh. by left.
  - intros id' Hid'. rewrite lookup_insert_ne.
    + apply Hfresh. by right.
    + intros ->. done.
Qed.

Lemma insertAll_lookup_split (kvs : list (nodeId * nodeDetails))
    (id : nodeId) (details : nodeDetails) :
  insertAll kvs ∅ !! id = Some details ->
  exists kvs1 kvs2, kvs = kvs1 ++ (id, details) :: kvs2 /\ id ∉ kvs2.*1.
Proof.
  induction kvs as [|[id' d'] kvs IH] using rev_ind; [done|].
  rewrite insertAll_app. simpl. intros Hid.
  destruct (decide (id' = id)) as [->|Hne].
  - rewrite lookup_insert_eq in Hid. injection Hid as ->.
    exists kvs, []. split; [done|]. apply not_elem_of_nil.
  - rewrite lookup_insert_ne in Hid by done.
    destruct (IH Hid) as (kvs1 & kvs2 & -> & Hnot).
    exists kvs1, (kvs2 ++ [(id', d')]). split.
    + by rewrite <- app_assoc.
    + rewrite fmap_app. simpl. intros [?|Hin%list_elem_of_singleton]%elem_of_app;
        [done|congruence].
Qed.

Lemma insertAll_size_tight (kvs : list (nodeId * nodeDetails))
    (nodes : nodeMap) :
  size (insertAll kvs nodes) = size nodes + length kvs ->
  NoDup kvs.*1 /\ forall id, id ∈ kvs.*1 -> nodes !! id = None.
Proof.
  revert nodes.
  induction kvs as [|[id d] kvs IH]; intros nodes Hsize; simpl in *.
  - split; [constructor|]. by intros id ?%elem_of_nil.
  - pose proof (insertAll_size kvs (<[id:=d]> nodes)) as Hle.
    destruct (nodes !! id) eqn:Hid.
    { rewrite map_size_insert_Some in Hle by done. lia. }
    rewrite map_size_insert_None in Hle by done.
    destruct (IH (<[id:=d]> nodes)) as [Hnd Hfresh].
    { rewrite map_size_insert_None by done. lia. }
    split.
    + constructor; [|done]. intros Hin. apply Hfresh in Hin.
      by rewrite lookup_insert_eq in Hin.
    + intros id' [->|Hin]%elem_of_cons; [done|].
      pose proof (Hfresh id' Hin) as Hnone.
      destruct (decide (id = id')) as [->|Hne].
      * by rewrite lookup_insert_eq in Hnone.
      * by rewrite lookup_insert_ne in Hnone.
Qed.

Lemma nodeOfSource_span_result (s : source) (id : nodeId)
    (details : nodeDetails) :
  nodeOfSource s = Some (id, details) ->
  traceID id = Trace_ID s /\ parentID details = Parent_ID s /\
  service details = Context_Service_Name s /\
  (transaction details = false -> result details = "").
Proof.
  unfold nodeOfSource.
  destruct (Span s) as [sp|], (Transaction s) as [tx|]; intros [= <- <-];
    done.
Qed.

(** ** Further properties of [fetchTrace] *)

(** X1: [fetchTrace] is all or nothing: it returns a record set exactly when
    the multi-search succeeded, no response carries an error or reports
    more hits than it returned, and every hit of every response decodes to
    a span or a transaction; the record set then holds the nodes of all
    hits, inserted in order. *)
Theorem fetchTrace_all_or_nothing (m : msearch) (nodes : nodeMap) :
  fetchTrace m = FetchOk nodes <->
  exists rs kvs,
    m = MSearchResponses rs /\
    Forall (fun r => Error r = None /\ ~ truncated r) rs /\
    mapM nodeOfHit (allHits rs) = Some kvs /\
    nodes = insertAll kvs ∅.
Proof.
  destruct m as [err|rs]; simpl.
  - split; [done|]. by intros (rs & kvs & ? & _).
  - rewrite addResponses_Ok. split.
    + intros (Hall & kvs & Hkvs & ->). by exists rs, kvs.
    + intros (rs' & kvs & [= <-] & Hall & Hkvs & ->).
      split; [done|]. by exists kvs.
Qed.

(** X2: after a successful fetch a record is in the map exactly when it is the
    node of a hit that no later hit with the same identity follows: of two
    hits with one identity the later one wins, and nothing else gets into
    the map. *)
Theorem fetchTrace_last_hit_wins (rs : list response) (nodes : nodeMap)
    (id : nodeId) (details : nodeDetails) :
  fetchTrace (MSearchResponses rs) = FetchOk nodes ->
  nodes !! id = Some details <->
  exists before x after,
    allHits rs = before ++ x :: after /\
    nodeOfHit x = Some (id, details) /\
    forall y d, y ∈ after -> nodeOfHit y <> Some (id, d).
Proof.
  intros Hfetch.
  apply fetchTrace_all_or_nothing in Hfetch
    as (rs' & kvs & [= <-] & _ & Hkvs & ->).
  apply mapM_Some in Hkvs. split.
  - intros Hid.
    apply insertAll_lookup_split in Hid as (kvs1 & kvs2 & -> & Hnot).
    apply Forall2_app_inv_r in Hkvs as (before & rest & Hb & Hrest & Heq).
    apply Forall2_cons_inv_r in Hrest as (x & after & Hx & Hafter & ->).
    exists before, x, after. split; [done|]. split; [done|].
    intros y d Hy Hyd.
    apply list_elem_of_lookup in Hy as [i Hi].
    destruct (Forall2_lookup_l _ _ _ _ _ Hafter Hi) as (kv & Hkv & Hykv).
    apply Hnot. apply list_elem_of_fmap. exists kv. split.
    + rewrite Hyd in Hykv. by injection Hykv as <-.
    + by eapply list_elem_of_lookup_2.
  - intros (before & x & after & Heq & Hx & Hlater).
    rewrite Heq in Hkvs.
    apply Forall2_app_inv_l in Hkvs as (kvs1 & rest & _ & Hrest & ->).
    apply Forall2_cons_inv_l in Hrest as (kv & kvs2 & Hkv & Hafter & ->).
    assert (kv = (id, details)) as -> by congruence.
    apply insertAll_lookup_last.
    intros ([id' d] & Hid' & Hin)%list_elem_of_fmap. simpl in Hid'. subst id'.
    apply list_elem_of_lookup in Hin as [i Hi].
    destruct (Forall2_lookup_r _ _ _ _ _ Hafter Hi) as (y & Hy & Hyd).
    eapply Hlater; [|exact Hyd]. by eapply list_elem_of_lookup_2.
Qed.

Lemma fetchTrace_last_hit_wins_witness :
  twoAnswersNodes !! NodeId "T" "t1"
    = Some (NodeDetails "" "POST /" "request" "svc-b" "500" true) <->
  exists before x after,
    allHits twoAnswers = before ++ x :: after /\
    nodeOfHit x
      = Some (NodeId "T" "t1",
              NodeDetails "" "POST /" "request" "svc-b" "500" true) /\
    forall y d, y ∈ after -> nodeOfHit y <> Some (NodeId "T" "t1", d).
Proof.
  apply (fetchTrace_last_hit_wins twoAnswers twoAnswersNodes).
  vm_compute. reflexivity.
Defined.

(** X3: the number of records of a successful fetch, which is what the polling
    loop compares from pass to pass, counts identities and not hits: it is
    at most the number of hits returned, and equal to it exactly when no
    two hits share an identity. *)
Theorem fetchTrace_counts_identities (rs : list response) (nodes : nodeMap) :
  fetchTrace (MSearchResponses rs) = FetchOk nodes ->
  exists kvs,
    mapM nodeOfHit (allHits rs) = Some kvs /\
    size nodes <= length (allHits rs) /\
    (size nodes = length (allHits rs) <-> NoDup kvs.*1).
Proof.
  intros Hfetch.
  apply fetchTrace_all_or_nothing in Hfetch
    as (rs' & kvs & [= <-] & _ & Hkvs & ->).
  exists kvs. split; [done|].
  apply length_mapM in Hkvs. rewrite Hkvs.
  pose proof (insertAll_size kvs ∅) as Hle.
  rewrite map_size_empty in Hle. split; [lia|]. split.
  - intros Hsize. apply (insertAll_size_tight kvs ∅).
    rewrite map_size_empty. lia.
  - intros Hnd. rewrite insertAll_size_NoDup; [by rewrite map_size_empty|done|].
    intros id _. apply lookup_empty.
Qed.

Lemma fetchTrace_counts_identities_witness :
  exists kvs,
    mapM nodeOfHit (allHits twoAnswers) = Some kvs /\
    size twoAnswersNodes <= length (allHits twoAnswers) /\
    (size twoAnswersNodes = length (allHits twoAnswers) <-> NoDup kvs.*1).
Proof.
  apply (fetchTrace_counts_identities twoAnswers twoAnswersNodes).
  vm_compute. reflexivity.
Defined.

(** X4: after a successful fetch every record that is not a transaction has an
    empty result, so the label of a span is [name (service)] with nothing
    appended. *)
Theorem fetchTrace_spans_have_no_result (m : msearch) (nodes : nodeMap)
    (id : nodeId) (details : nodeDetails) :
  fetchTrace m = FetchOk nodes ->
  nodes !! id = Some details ->
  transaction details = false ->
  result details = "" /\
  plainText details = name details +:+ " (" +:+ service details +:+ ")".
Proof.
  intros Hfetch Hid Hspan.
  apply fetchTrace_all_or_nothing in Hfetch
    as (rs & kvs & -> & _ & Hkvs & ->).
  apply insertAll_lookup_inv in Hid as [Hid|Hin]; [by rewrite lookup_empty in Hid|].
  apply mapM_Some in Hkvs.
  apply list_elem_of_lookup in Hin as [i Hi].
  destruct (Forall2_lookup_r _ _ _ _ _ Hkvs Hi) as (x & _ & Hx).
  destruct x as [err|s]; [done|]. simpl in Hx.
  apply nodeOfSource_span_result in Hx as (_ & _ & _ & Hres).
  specialize (Hres Hspan). split; [done|].
  unfold plainText. rewrite Hres. reflexivity.
Qed.

Lemma fetchTrace_spans_have_no_result_witness :
  result (NodeDetails "t1" "render" "template" "svc-a" "" false) = "" /\
  plainText (NodeDetails "t1" "render" "template" "svc-a" "" false)
    = name (NodeDetails "t1" "render" "template" "svc-a" "" false)
      +:+ " (" +:+
      service (NodeDetails "t1" "render" "template" "svc-a" "" false)
      +:+ ")".
Proof.
  apply (fetchTrace_spans_have_no_result (MSearchResponses twoAnswers)
           twoAnswersNodes (NodeId "T" "s1")).
  - vm_compute. reflexivity.
  - vm_compute. reflexivity.
  - reflexivity.
Defined.

(** ** Further properties of the tree builder *)

Section BuiltTree.
Context `{Color}.
Variables (trace : string) (recentRequest : bool) (nodes : nodeMap).
Variables (l1 l2 : list (nodeId * nodeDetails)).
Hypothesis Hl1 : l1 ≡ₚ map_to_list nodes.
Hypothesis Hl2 : l2 ≡ₚ map_to_list nodes.
Variable b : built.
Hypothesis Hbuild : buildTreeIn trace recentRequest l1 l2 = Some b.

Lemma NoDup_order2 : NoDup l2.*1.
Proof. rewrite Hl2. apply NoDup_fst_map_to_list. Qed.

Lemma built_heap_length : length (b_heap b) = 2 + size nodes.
Proof.
  destruct (built_unfold trace recentRequest l1 l2 b Hbuild)
    as (_ & _ & _ & Hattach).
  apply attachNodes_Some in Hattach as (_ & -> & _).
  unfold heap0. simpl. rewrite length_fmap, Hl1.
  by rewrite length_map_to_list.
Qed.

Lemma node_of_record_inj x y :
  x ∈ l2 -> y ∈ l2 -> b_treeNodes b !! x.1 = b_treeNodes b !! y.1 -> x = y.
Proof.
  destruct x as [id1 n1], y as [id2 n2]. simpl. intros Hx Hy Heq.
  apply (elem_of_order2 nodes l2 Hl2) in Hx, Hy.
  destruct (treeNodes_record trace recentRequest nodes l1 l2 Hl1 b Hbuild
              id1 n1 Hx) as (i & _ & Hi).
  rewrite Hi in Heq. symmetry in Heq.
  assert (id1 = id2) as ->
    by exact (treeNodes_inj trace recentRequest nodes l1 l2 Hl1 b Hbuild
                _ _ _ Hi Heq).
  congruence.
Qed.

Lemma Items_NoDup p : NoDup (Items (b_heap b) p).
Proof.
  destruct (heap0 l1 !! p) as [t|] eqn:Hp.
  - rewrite (built_Items trace recentRequest l1 l2 b Hbuild p)
      by by eexists.
    unfold childrenOf. apply NoDup_fmap_2_strong.
    + intros x y [_ Hx]%list_elem_of_filter [_ Hy]%list_elem_of_filter.
      by apply node_of_record_inj.
    + apply NoDup_filter. eapply NoDup_fmap_1, NoDup_order2.
  - rewrite (built_Items_dangling trace recentRequest l1 l2 b Hbuild p Hp).
    constructor.
Qed.

Lemma rootTransactions_NoDup : NoDup (b_rootTransactions b).
Proof.
  rewrite (built_rootTransactions trace recentRequest l1 l2 b Hbuild).
  unfold rootTransactionsOf.
  apply NoDup_fmap_2_strong.
  - intros [id1 n1] [id2 n2] [_ Hx]%list_elem_of_filter
      [_ Hy]%list_elem_of_filter. simpl. intros ->.
    apply (elem_of_order2 nodes l2 Hl2) in Hx, Hy. congruence.
  - apply NoDup_filter. eapply NoDup_fmap_1, NoDup_order2.
Qed.

Lemma rootTransactions_below_root id :
  id ∈ b_rootTransactions b ->
  exists node, nodes !! id = Some node /\
    b_treeNodes b !! parentKey id node = Some 0.
Proof.
  rewrite (built_rootTransactions trace recentRequest l1 l2 b Hbuild).
  unfold rootTransactionsOf.
  intros ([id' node] & -> & Hin)%list_elem_of_fmap.
  apply list_elem_of_filter in Hin as [[_ Hparent] Hin]. simpl in *.
  apply (elem_of_order2 nodes l2 Hl2) in Hin.
  exists node. split; [done|].
  unfold parentNodeOf in Hparent.
  destruct (b_treeNodes b !! parentKey id' node) as [q|]; [done|].
  by destruct recentRequest.
Qed.

Lemma root_item_parent c :
  c ∈ Items (b_heap b) 0 ->
  exists id node, nodes !! id = Some node /\
    b_treeNodes b !! parentKey id node = Some 0.
Proof.
  intros Hin.
  destruct (Items_are_records trace recentRequest nodes l1 l2 Hl1 Hl2 b Hbuild
              0 c Hin) as (id & node & a & Hid & Ha & ->).
  apply (placed trace recentRequest nodes l1 l2 Hl1 Hl2 b Hbuild
           id node a 0 Hid Ha) in Hin.
  exists id, node. split; [done|].
  unfold parentNodeOf in Hin.
  destruct (b_treeNodes b !! parentKey id node) as [q|]; [done|].
  by destruct recentRequest.
Qed.

Lemma orphaned_item_parent c :
  c ∈ Items (b_heap b) 1 ->
  recentRequest = false /\
  exists id node, nodes !! id = Some node /\
    b_treeNodes b !! parentKey id node = None.
Proof.
  intros Hin.
  destruct (Items_are_records trace recentRequest nodes l1 l2 Hl1 Hl2 b Hbuild
              1 c Hin) as (id & node & a & Hid & Ha & ->).
  apply (placed trace recentRequest nodes l1 l2 Hl1 Hl2 b Hbuild
           id node a 1 Hid Ha) in Hin.
  unfold parentNodeOf in Hin.
  destruct (b_treeNodes b !! parentKey id node) as [q|] eqn:Hq.
  - injection Hin as ->.
    by destruct (treeNodes_not_orphaned trace recentRequest nodes l1 l2 Hl1 b
                   Hbuild _ Hq).
  - destruct recentRequest; [done|]. split; [done|]. by exists id, node.
Qed.

End BuiltTree.

(** X5: the tree mirrors the parent references: in a build that runs to its
    end, the node of a record [c] is an item of the node of a record [p]
    exactly when [c] names [p] as its parent, that is, both have the same
    trace id and the [parentID] of [c] is the span id of [p]. *)
Theorem children_name_their_parent `{Color} (trace : string)
    (recentRequest : bool) (nodes : nodeMap)
    (l1 l2 : list (nodeId * nodeDetails)) (b : built)
    (c p : nodeId) (cnode pnode : nodeDetails) (a q : addr) :
  l1 ≡ₚ map_to_list nodes -> l2 ≡ₚ map_to_list nodes ->
  buildTreeIn trace recentRequest l1 l2 = Some b ->
  nodes !! c = Some cnode -> nodes !! p = Some pnode ->
  b_treeNodes b !! c = Some a -> b_treeNodes b !! p = Some q ->
  Some a ∈ Items (b_heap b) q <->
  traceID c = traceID p /\ parentID cnode = spanID p.
Proof.
  intros Hl1 Hl2 Hbuild Hc Hp Ha Hq.
  rewrite (placed trace recentRequest nodes l1 l2 Hl1 Hl2 b Hbuild
             c cnode a q Hc Ha).
  assert (parentKey c cnode = p <->
          traceID c = traceID p /\ parentID cnode = spanID p) as <-.
  { unfold parentKey. destruct p as [pt ps]. simpl.
    split; [by intros [= -> ->]|by intros [-> ->]]. }
  unfold parentNodeOf.
  destruct (b_treeNodes b !! parentKey c cnode) as [q'|] eqn:Hq'.
  - split.
    + intros [= ->].
      exact (treeNodes_inj trace recentRequest nodes l1 l2 Hl1 b Hbuild
               _ _ _ Hq' Hq).
    + intros Hkey. rewrite Hkey in Hq'. congruence.
  - split.
    + destruct recentRequest; [done|]. intros [= <-].
      by destruct (treeNodes_not_orphaned trace false nodes l1 l2 Hl1 b
                     Hbuild _ Hq).
    + intros Hkey. rewrite Hkey in Hq'. congruence.
Qed.

Lemma children_name_their_parent_witness :
  Some 2 ∈ Items (b_heap (lookupOf rooted)) 3 <->
  traceID (NodeId "T" "s1") = traceID (NodeId "T" "t1") /\
  parentID (NodeDetails "t1" "SELECT" "db" "svc-a" "" false)
    = spanID (NodeId "T" "t1").
Proof.
  apply (@children_name_their_parent ansiColor "T" false rooted
           (map_to_list rooted) (map_to_list rooted) (lookupOf rooted)
           (NodeId "T" "s1") (NodeId "T" "t1")
           (NodeDetails "t1" "SELECT" "db" "svc-a" "" false)
           (NodeDetails "" "GET /" "request" "svc-a" "200" true)).
  - reflexivity.
  - reflexivity.
  - vm_compute. reflexivity.
  - vm_compute. reflexivity.
  - vm_compute. reflexivity.
  - vm_compute. reflexivity.
  - vm_compute. reflexivity.
Defined.

(** X6: whether a polling build jumps back does not depend on the order in
    which the maps are iterated, and it is the same question as whether a
    lookup would show orphans: the build of a record set with
    [recentRequest] set jumps back exactly when the build of the same
    record set without [recentRequest] ends with a non-empty orphan
    collection. *)
Theorem restart_iff_lookup_has_orphans `{Color} (trace : string)
    (nodes : nodeMap) (l1 l2 l1' l2' : list (nodeId * nodeDetails)) :
  l1 ≡ₚ map_to_list nodes -> l2 ≡ₚ map_to_list nodes ->
  l1' ≡ₚ map_to_list nodes -> l2' ≡ₚ map_to_list nodes ->
  buildTreeIn trace true l1 l2 = None <->
  exists b, buildTreeIn trace false l1' l2' = Some b /\
            Items (b_heap b) (b_orphaned b) <> [].
Proof.
  intros Hl1 Hl2 Hl1' Hl2'.
  rewrite (buildTreeIn_restart_iff trace nodes l1 l2 Hl1 Hl2).
  destruct (buildTreeIn_lookup_total trace l1' l2') as [b Hbuild].
  pose proof (built_orphaned trace false l1' l2' b Hbuild) as Horph.
  split.
  - intros (id & node & Hid & Hne & Hnone).
    exists b. split; [done|]. rewrite Horph.
    destruct (treeNodes_record trace false nodes l1' l2' Hl1' b Hbuild
                id node Hid) as (i & _ & Ha).
    assert (Some (2 + i) ∈ Items (b_heap b) 1) as Hin.
    { apply (placed trace false nodes l1' l2' Hl1' Hl2' b Hbuild
               id node (2 + i) 1 Hid Ha).
      unfold parentNodeOf.
      assert (b_treeNodes b !! parentKey id node = None) as ->
        by by apply (treeNodes_None trace false nodes l1' l2' Hl1' b Hbuild).
      done. }
    intros Hnil. rewrite Hnil in Hin. by apply elem_of_nil in Hin.
  - intros (b' & Hb' & Hitems).
    assert (b' = b) as -> by congruence. rewrite Horph in Hitems.
    destruct (Items (b_heap b) 1) as [|c cs] eqn:Hcs; [done|].
    destruct (orphaned_item_parent trace false nodes l1' l2' Hl1' Hl2' b
                Hbuild c) as (_ & id & node & Hid & Hnone).
    { rewrite Hcs. by left. }
    apply (treeNodes_None trace false nodes l1' l2' Hl1' b Hbuild)
      in Hnone as [? ?].
    by exists id, node.
Qed.

Lemma restart_iff_lookup_has_orphans_witness :
  @buildTreeIn ansiColor "T" true (map_to_list orphan) (map_to_list orphan)
    = None <->
  exists b,
    @buildTreeIn ansiColor "T" false (map_to_list orphan) (map_to_list orphan)
      = Some b /\
    Items (b_heap b) (b_orphaned b) <> [].
Proof.
  apply (@restart_iff_lookup_has_orphans ansiColor "T" orphan); reflexivity.
Defined.

(** X7: one node per record: a build that runs to its end has allocated the
    root, the orphan node and one node per record.  [treeNodes] has an
    entry exactly for the root key and the identities of the records; two
    keys never share a node; the node of a record is never the orphan
    node, and it is the root only for the root key while no record has
    that identity. *)
Theorem one_node_per_record `{Color} (trace : string) (recentRequest : bool)
    (nodes : nodeMap) (l1 l2 : list (nodeId * nodeDetails)) (b : built) :
  l1 ≡ₚ map_to_list nodes -> l2 ≡ₚ map_to_list nodes ->
  buildTreeIn trace recentRequest l1 l2 = Some b ->
  length (b_heap b) = 2 + size nodes /\
  (forall k, is_Some (b_treeNodes b !! k) <->
             k = rootKey trace \/ is_Some (nodes !! k)) /\
  (forall k1 k2 a, b_treeNodes b !! k1 = Some a ->
                   b_treeNodes b !! k2 = Some a -> k1 = k2) /\
  (forall k a, b_treeNodes b !! k = Some a ->
     a < length (b_heap b) /\ a <> b_orphaned b /\
     (a = b_root b <-> k = rootKey trace /\ nodes !! k = None)).
Proof.
  intros Hl1 Hl2 Hbuild.
  pose proof (built_heap_length trace recentRequest nodes l1 l2 Hl1 b Hbuild)
    as Hlen.
  rewrite (built_root trace recentRequest l1 l2 b Hbuild).
  rewrite (built_orphaned trace recentRequest l1 l2 b Hbuild).
  split; [done|]. split; [|split].
  - intros k. split.
    + intros [a Hk].
      destruct (decide (k = rootKey trace)) as [|Hne]; [by left|]. right.
      destruct (nodes !! k) eqn:Hnode; [by eexists|].
      assert (b_treeNodes b !! k = None) as Hnone
        by by apply (treeNodes_None trace recentRequest nodes l1 l2 Hl1 b
                       Hbuild).
      congruence.
    + intros Hor. destruct (b_treeNodes b !! k) eqn:Hk; [by eexists|].
      apply (treeNodes_None trace recentRequest nodes l1 l2 Hl1 b Hbuild)
        in Hk as [Hne Hnone].
      destruct Hor as [?|[? ?]]; congruence.
  - intros k1 k2 a.
    apply (treeNodes_inj trace recentRequest nodes l1 l2 Hl1 b Hbuild).
  - intros k a Hk. split; [|split].
    + destruct (treeNodes_in_heap trace recentRequest nodes l1 l2 Hl1 b
                  Hbuild k a Hk) as [t Ht].
      apply lookup_lt_Some in Ht. rewrite Hlen.
      unfold heap0 in Ht. simpl in Ht. rewrite length_fmap, Hl1 in Ht.
      by rewrite length_map_to_list in Ht.
    + intros ->.
      by destruct (treeNodes_not_orphaned trace recentRequest nodes l1 l2
                     Hl1 b Hbuild k).
    + rewrite <- (treeNodes_root trace recentRequest nodes l1 l2 Hl1 b
                    Hbuild k).
      split; [by intros ->|congruence].
Qed.

Lemma one_node_per_record_witness :
  length (b_heap (lookupOf rooted)) = 2 + size rooted /\
  (forall k, is_Some (b_treeNodes (lookupOf rooted) !! k) <->
             k = rootKey "T" \/ is_Some (rooted !! k)) /\
  (forall k1 k2 a, b_treeNodes (lookupOf rooted) !! k1 = Some a ->
                   b_treeNodes (lookupOf rooted) !! k2 = Some a -> k1 = k2) /\
  (forall k a, b_treeNodes (lookupOf rooted) !! k = Some a ->
     a < length (b_heap (lookupOf rooted)) /\
     a <> b_orphaned (lookupOf rooted) /\
     (a = b_root (lookupOf rooted) <->
      k = rootKey "T" /\ rooted !! k = None)).
Proof.
  apply (@one_node_per_record ansiColor "T" false rooted
           (map_to_list rooted) (map_to_list rooted)).
  - reflexivity.
  - reflexivity.
  - vm_compute. reflexivity.
Defined.

(** X8: nothing is attached or listed twice: in a build that runs to its end
    no node has the same item twice, and [rootTransactions] names no
    record twice, so no tree is printed twice. *)
Theorem nothing_attached_twice `{Color} (trace : string)
    (recentRequest : bool) (nodes : nodeMap)
    (l1 l2 : list (nodeId * nodeDetails)) (b : built) :
  l1 ≡ₚ map_to_list nodes -> l2 ≡ₚ map_to_list nodes ->
  buildTreeIn trace recentRequest l1 l2 = Some b ->
  (forall p, NoDup (Items (b_heap b) p)) /\
  NoDup (b_rootTransactions b) /\
  length (b_rootTransactions b) <= size nodes.
Proof.
  intros Hl1 Hl2 Hbuild. split; [|split].
  - intros p.
    exact (Items_NoDup trace recentRequest nodes l1 l2 Hl1 Hl2 b Hbuild p).
  - exact (rootTransactions_NoDup trace recentRequest nodes l1 l2 Hl2 b
             Hbuild).
  - rewrite (built_rootTransactions trace recentRequest l1 l2 b Hbuild).
    unfold rootTransactionsOf. rewrite length_fmap.
    etrans; [apply length_filter|].
    by rewrite Hl2, length_map_to_list.
Qed.

Lemma nothing_attached_twice_witness :
  (forall p, NoDup (Items (b_heap (lookupOf rooted)) p)) /\
  NoDup (b_rootTransactions (lookupOf rooted)) /\
  length (b_rootTransactions (lookupOf rooted)) <= size rooted.
Proof.
  apply (@nothing_attached_twice ansiColor "T" false rooted
           (map_to_list rooted) (map_to_list rooted)).
  - reflexivity.
  - reflexivity.
  - vm_compute. reflexivity.
Defined.

(** X9: when a record has the identity of the root key, [(traceID, "")], its
    node replaces the root in [treeNodes]: in a build that runs to its end
    the root then has no items and [rootTransactions] is empty, whatever
    the other records are. *)
Theorem root_key_taken `{Color} (trace : string) (recentRequest : bool)
    (nodes : nodeMap) (l1 l2 : list (nodeId * nodeDetails)) (b : built) :
  l1 ≡ₚ map_to_list nodes -> l2 ≡ₚ map_to_list nodes ->
  buildTreeIn trace recentRequest l1 l2 = Some b ->
  is_Some (nodes !! rootKey trace) ->
  Items (b_heap b) (b_root b) = [] /\ b_rootTransactions b = [].
Proof.
  intros Hl1 Hl2 Hbuild [taken Htaken].
  assert (forall k, b_treeNodes b !! k <> Some 0) as Hnoroot.
  { intros k Hk.
    apply (treeNodes_root trace recentRequest nodes l1 l2 Hl1 b Hbuild)
      in Hk as [-> Hnone].
    congruence. }
  rewrite (built_root trace recentRequest l1 l2 b Hbuild). split.
  - destruct (Items (b_heap b) 0) as [|c cs] eqn:Hcs; [done|].
    destruct (root_item_parent trace recentRequest nodes l1 l2 Hl1 Hl2 b
                Hbuild c) as (id & node & _ & Hk).
    { rewrite Hcs. by left. }
    by destruct (Hnoroot _ Hk).
  - destruct (b_rootTransactions b) as [|id ids] eqn:Hids; [done|].
    destruct (rootTransactions_below_root trace recentRequest nodes l1 l2
                Hl2 b Hbuild id) as (node & _ & Hk).
    { rewrite Hids. by left. }
    by destruct (Hnoroot _ Hk).
Qed.

Lemma root_key_taken_witness :
  Items (b_heap (lookupOf rootTaken)) (b_root (lookupOf rootTaken)) = [] /\
  b_rootTransactions (lookupOf rootTaken) = [].
Proof.
  apply (@root_key_taken ansiColor "T" false rootTaken
           (map_to_list rootTaken) (map_to_list rootTaken)).
  - reflexivity.
  - reflexivity.
  - vm_compute. reflexivity.
  - vm_compute. by eexists.
Defined.

(** ** Further properties of the polling loop *)

Section LoopFacts.
Context `{Color}.
Variables (trace : string) (recentRequest : bool) (deadline : Z) (E : env).

(** A pass starts with a sleep or a fetch, never with a build. *)
Lemma mainLoop_head fuel lastNodeCount k :
  match (mainLoop trace recentRequest deadline E fuel lastNodeCount k).1 with
  | [] => True
  | e :: _ => isBuild e = false
  end.
Proof.
  destruct fuel as [|fuel]; [done|]. rewrite mainLoop_S.
  destruct (recentRequest && negb (clock E k <? deadline)%Z); [done|].
  simpl.
  destruct (fetchTrace (backend E k)) as [nodes|err|msg];
    [|by destruct recentRequest..].
  destruct (Z.of_nat (size nodes) =? lastNodeCount)%Z;
    [by destruct recentRequest|].
  destruct (buildTree trace recentRequest nodes); by destruct recentRequest.
Qed.

Lemma buildCounts_fetch count evs :
  match evs with [] => True | e :: _ => isBuild e = false end ->
  buildCounts (EFetch count :: evs) = buildCounts evs.
Proof. destruct evs as [|e evs]; [done|]. simpl. by intros ->. Qed.

Lemma buildCounts_build count e evs :
  isBuild e = true ->
  buildCounts (EFetch count :: e :: evs) = count :: buildCounts evs.
Proof. intros He. simpl. rewrite He. by destruct e, evs. Qed.

Lemma buildCounts_sleep evs : buildCounts (ESleep :: evs) = buildCounts evs.
Proof. by destruct evs. Qed.

Lemma mainLoop_changing fuel lastNodeCount k :
  changing lastNodeCount
    (buildCounts
       (mainLoop trace recentRequest deadline E fuel lastNodeCount k).1).
Proof.
  revert lastNodeCount k.
  induction fuel as [|fuel IH]; intros lastNodeCount k; [done|].
  rewrite mainLoop_S.
  destruct (recentRequest && negb (clock E k <? deadline)%Z); [done|].
  cbn zeta.
  assert (forall evs, buildCounts
            ((if recentRequest then [ESleep] else []) ++ evs)
          = buildCounts evs) as Hslept.
  { intros evs. destruct recentRequest; [apply buildCounts_sleep|done]. }
  destruct (fetchTrace (backend E k)) as [nodes|err|msg];
    [|by destruct recentRequest..].
  pose proof (mainLoop_head fuel) as Hhead.
  destruct (Z.eqb_spec (Z.of_nat (size nodes)) lastNodeCount) as [Heq|Hne].
  - unfold prepend. cbn [fst snd]. rewrite <- app_assoc, Hslept.
    cbn [app]. rewrite buildCounts_fetch by apply Hhead. apply IH.
  - destruct (buildTree trace recentRequest nodes) as [b|].
    + destruct recentRequest.
      * unfold prepend. cbn [fst snd app].
        rewrite buildCounts_sleep, buildCounts_build by done.
        split; [done|]. apply IH.
      * cbn [fst snd app]. by rewrite buildCounts_build.
    + unfold prepend. cbn [fst snd]. rewrite <- app_assoc, Hslept.
      cbn [app]. rewrite buildCounts_build by done.
      split; [done|]. apply IH.
Qed.

Lemma mainLoop_failed fuel lastNodeCount k i :
  (mainLoop trace recentRequest deadline E fuel lastNodeCount k).1 !! i
    = Some EFetchFailed ->
  S i = length (mainLoop trace recentRequest deadline E fuel lastNodeCount k).1
  /\ exists j msg, k <= j /\
       ((mainLoop trace recentRequest deadline E fuel lastNodeCount k).2
          = Fatal msg /\ fetchTrace (backend E j) = FetchErr msg \/
        (mainLoop trace recentRequest deadline E fuel lastNodeCount k).2
          = Panicked msg /\ fetchTrace (backend E j) = FetchPanic msg).
Proof.
  revert lastNodeCount k i.
  induction fuel as [|fuel IH]; intros lastNodeCount k i; [done|].
  rewrite mainLoop_S.
  destruct (recentRequest && negb (clock E k <? deadline)%Z); [done|].
  simpl.
  assert (forall n evs,
    (forall e, e ∈ evs -> e <> EFetchFailed) ->
    prepend evs (mainLoop trace recentRequest deadline E fuel n (S k)) =
      (evs ++ (mainLoop trace recentRequest deadline E fuel n (S k)).1,
       (mainLoop trace recentRequest deadline E fuel n (S k)).2) ->
    (evs ++ (mainLoop trace recentRequest deadline E fuel n (S k)).1) !! i
      = Some EFetchFailed ->
    S i = length (evs ++
            (mainLoop trace recentRequest deadline E fuel n (S k)).1) /\
    exists j msg, k <= j /\
      ((mainLoop trace recentRequest deadline E fuel n (S k)).2 = Fatal msg /\
         fetchTrace (backend E j) = FetchErr msg \/
       (mainLoop trace recentRequest deadline E fuel n (S k)).2
         = Panicked msg /\ fetchTrace (backend E j) = FetchPanic msg))
    as Hrec.
  { intros n evs Hevs _ Hi.
    apply lookup_app_Some in Hi as [Hi|[Hlen Hi]].
    - apply list_elem_of_lookup_2 in Hi. by destruct (Hevs _ Hi).
    - apply IH in Hi as (Hlast & j & msg & Hj & Hout).
      split; [rewrite length_app; lia|].
      exists j, msg. split; [lia|done]. }
  destruct (fetchTrace (backend E k)) as [nodes|err|msg] eqn:Hfetch.
  - destruct (Z.of_nat (size nodes) =? lastNodeCount)%Z.
    + unfold prepend. simpl. intros Hi.
      apply (Hrec lastNodeCount
               ((if recentRequest then [ESleep] else [])
                ++ [EFetch (Z.of_nat (size nodes))])); [|done|done].
      intros e He. destruct recentRequest; split_events He; by subst.
    + destruct (buildTree trace recentRequest nodes) as [b|].
      * destruct recentRequest.
        -- unfold prepend. simpl. intros Hi.
           apply (Hrec (Z.of_nat (size nodes))
                    [ESleep; EFetch (Z.of_nat (size nodes)); ERender b]);
             [|done|done].
           intros e He. destruct recentRequest; split_events He; by subst.
        -- simpl. intros Hi. by destruct i as [|[|i]].
      * unfold prepend. simpl. intros Hi.
        apply (Hrec (Z.of_nat (size nodes))
                 ((if recentRequest then [ESleep] else [])
                  ++ [EFetch (Z.of_nat (size nodes)); ERestart]));
          [|done|done].
        intros e He. destruct recentRequest; split_events He; by subst.
  - simpl. intros Hi. split.
    + destruct recentRequest; simpl in *; by destruct i as [|[|i]].
    + exists k, err. split; [done|]. by left.
  - simpl. intros Hi. split.
    + destruct recentRequest; simpl in *; by destruct i as [|[|i]].
    + exists k, msg. split; [done|]. by right.
Qed.

Lemma mainLoop_fatal fuel lastNodeCount k :
  (exists msg,
     (mainLoop trace recentRequest deadline E fuel lastNodeCount k).2
       = Fatal msg \/
     (mainLoop trace recentRequest deadline E fuel lastNodeCount k).2
       = Panicked msg) ->
  last (mainLoop trace recentRequest deadline E fuel lastNodeCount k).1
    = Some EFetchFailed.
Proof.
  revert lastNodeCount k.
  induction fuel as [|fuel IH]; intros lastNodeCount k.
  { simpl. by intros (msg & [?|?]). }
  rewrite mainLoop_S.
  destruct (recentRequest && negb (clock E k <? deadline)%Z).
  { simpl. by intros (msg & [?|?]). }
  cbn zeta.
  assert (forall n evs,
    (exists msg,
       (mainLoop trace recentRequest deadline E fuel n (S k)).2 = Fatal msg \/
       (mainLoop trace recentRequest deadline E fuel n (S k)).2
         = Panicked msg) ->
    last (evs ++ (mainLoop trace recentRequest deadline E fuel n (S k)).1)
      = Some EFetchFailed) as Hrec.
  { intros n evs Hout. apply IH in Hout.
    destruct (mainLoop trace recentRequest deadline E fuel n (S k)).1
      as [|e evs'] using rev_ind; [done|].
    rewrite last_snoc in Hout. by rewrite app_assoc, last_snoc. }
  destruct (fetchTrace (backend E k)) as [nodes|err|msg].
  - destruct (Z.of_nat (size nodes) =? lastNodeCount)%Z.
    + unfold prepend. cbn [fst snd]. apply Hrec.
    + destruct (buildTree trace recentRequest nodes) as [b|].
      * destruct recentRequest.
        -- unfold prepend. cbn [fst snd]. apply Hrec.
        -- cbn [fst snd]. by intros (msg & [?|?]).
      * unfold prepend. cbn [fst snd]. apply Hrec.
  - intros _. by destruct recentRequest.
  - intros _. by destruct recentRequest.
Qed.

Lemma mainLoop_rendered fuel lastNodeCount k b :
  ERender b ∈ (mainLoop trace recentRequest deadline E fuel lastNodeCount k).1
  ->
  exists j nodes, k <= j /\
    fetchTrace (backend E j) = FetchOk nodes /\
    buildTree trace recentRequest nodes = Some b.
Proof.
  revert lastNodeCount k.
  induction fuel as [|fuel IH]; intros lastNodeCount k.
  { simpl. by intros ?%elem_of_nil. }
  rewrite mainLoop_S.
  destruct (recentRequest && negb (clock E k <? deadline)%Z).
  { simpl. by intros ?%elem_of_nil. }
  simpl.
  assert (forall n,
    ERender b ∈ (mainLoop trace recentRequest deadline E fuel n (S k)).1 ->
    exists j nodes, k <= j /\
      fetchTrace (backend E j) = FetchOk nodes /\
      buildTree trace recentRequest nodes = Some b) as Hrec.
  { intros n (j & nodes & Hj & Hrest)%IH. exists j, nodes.
    split; [lia|done]. }
  destruct (fetchTrace (backend E k)) as [nodes|err|msg] eqn:Hfetch.
  - destruct (Z.of_nat (size nodes) =? lastNodeCount)%Z.
    + unfold prepend. cbn [fst snd]. intros Hin. apply (Hrec lastNodeCount).
      destruct recentRequest; by split_events Hin.
    + destruct (buildTree trace recentRequest nodes) as [b'|] eqn:Hb.
      * assert (ERender b = ERender b' -> exists j nodes0, k <= j /\
                  fetchTrace (backend E j) = FetchOk nodes0 /\
                  buildTree trace recentRequest nodes0 = Some b) as Hhere.
        { intros [= ->]. by exists k, nodes. }
        destruct recentRequest.
        -- unfold prepend. simpl. rewrite !elem_of_cons.
           intros [?|[?|[?|Hin]]]; [done|done|by apply Hhere|].
           by apply (Hrec (Z.of_nat (size nodes))).
        -- simpl. rewrite !elem_of_cons, elem_of_nil.
           intros [?|[?|?]]; [done|by apply Hhere|done].
      * unfold prepend. cbn [fst snd]. intros Hin.
        apply (Hrec (Z.of_nat (size nodes))).
        destruct recentRequest; by split_events Hin.
  - cbn [fst snd]. intros Hin. destruct recentRequest; by split_events Hin.
  - cbn [fst snd]. intros Hin. destruct recentRequest; by split_events Hin.
Qed.

End LoopFacts.

(** X10: a poll ends by its deadline: when every pass takes at least the five
    seconds of its sleep and the deadline is at most [N] such sleeps away,
    the polling loop makes at most [N] passes and then stops - by the
    deadline exit or by a failed fetch - without needing more fuel. *)
Theorem polling_ends_by_the_deadline `{Color} (trace : string) (deadline : Z)
    (E : env) (lastNodeCount : Z) (k N : nat) :
  (forall j, (clock E j + seconds 5 <= clock E (S j))%Z) ->
  (deadline <= clock E k + seconds 5 * Z.of_nat N)%Z ->
  (mainLoop trace true deadline E (S N) lastNodeCount k).2 <> OutOfFuel /\
  passes (mainLoop trace true deadline E (S N) lastNodeCount k).1 <= N.
Proof.
  intros Hclock. revert lastNodeCount k.
  induction N as [|N IH]; intros lastNodeCount k Hdeadline;
    rewrite mainLoop_S; cbn zeta;
    destruct (Z.ltb_spec (clock E k) deadline) as [Hk|Hk]; cbn [andb negb];
    try (split; [done|unfold passes; simpl; lia]).
  { unfold seconds in *. lia. }
  assert (deadline <= clock E (S k) + seconds 5 * Z.of_nat N)%Z as Hnext.
  { specialize (Hclock k). unfold seconds in *. lia. }
  assert (forall n evs, passes evs = 1 ->
    (prepend evs (mainLoop trace true deadline E (S N) n (S k))).2
      <> OutOfFuel /\
    passes (prepend evs (mainLoop trace true deadline E (S N) n (S k))).1
      <= S N) as Hrec.
  { intros n evs Hevs. destruct (IH n (S k) Hnext) as [Hout Hpasses].
    unfold prepend. cbn [fst snd]. split; [done|].
    unfold passes in *. rewrite List.filter_app, length_app. lia. }
  destruct (fetchTrace (backend E k)) as [nodes|err|msg];
    [|split; [done|unfold passes; simpl; lia]..].
  destruct (Z.of_nat (size nodes) =? lastNodeCount)%Z; [by apply Hrec|].
  destruct (buildTree trace true nodes) as [b|]; by apply Hrec.
Qed.

Lemma polling_ends_by_the_deadline_witness :
  (@mainLoop ansiColor "T" true (seconds 30) lateParent (S 6) 0 0).2
    <> OutOfFuel /\
  passes (@mainLoop ansiColor "T" true (seconds 30) lateParent (S 6) 0 0).1
    <= 6.
Proof.
  apply (@polling_ends_by_the_deadline ansiColor "T" (seconds 30) lateParent
           0 0 6).
  - intros j. simpl. unfold fiveSecondClock, seconds. lia.
  - vm_compute. discriminate.
Defined.

(** X11: a lookup of an existing trace ([recentRequest] unset) fetches, without
    ever sleeping, until a fetch fails or returns at least one record; the
    first non-empty record set is built and rendered once, with its
    orphans, and the run ends.  All fetches before returned no record. *)
Theorem lookup_run_shape `{Color} (trace : string) (deadline : Z) (E : env)
    (fuel : nat) :
  exists m,
    m <= fuel /\
    (forall j, j < m -> fetchTrace (backend E j) = FetchOk ∅) /\
    ((m = fuel /\
      run trace false deadline E fuel
        = (replicate m (EFetch 0), OutOfFuel)) \/
     (exists err,
        fetchTrace (backend E m) = FetchErr err /\
        run trace false deadline E fuel
          = (replicate m (EFetch 0) ++ [EFetchFailed], Fatal err)) \/
     (exists msg,
        fetchTrace (backend E m) = FetchPanic msg /\
        run trace false deadline E fuel
          = (replicate m (EFetch 0) ++ [EFetchFailed], Panicked msg)) \/
     (exists nodes b,
        fetchTrace (backend E m) = FetchOk nodes /\ nodes <> ∅ /\
        buildTree trace false nodes = Some b /\
        run trace false deadline E fuel
          = (replicate m (EFetch 0)
               ++ [EFetch (Z.of_nat (size nodes)); ERender b],
             LookupExit))).
Proof.
  unfold run.
  assert (forall k, exists m,
    m <= fuel /\
    (forall j, j < m -> fetchTrace (backend E (k + j)) = FetchOk ∅) /\
    ((m = fuel /\
      mainLoop trace false deadline E fuel 0 k
        = (replicate m (EFetch 0), OutOfFuel)) \/
     (exists err,
        fetchTrace (backend E (k + m)) = FetchErr err /\
        mainLoop trace false deadline E fuel 0 k
          = (replicate m (EFetch 0) ++ [EFetchFailed], Fatal err)) \/
     (exists msg,
        fetchTrace (backend E (k + m)) = FetchPanic msg /\
        mainLoop trace false deadline E fuel 0 k
          = (replicate m (EFetch 0) ++ [EFetchFailed], Panicked msg)) \/
     (exists nodes b,
        fetchTrace (backend E (k + m)) = FetchOk nodes /\ nodes <> ∅ /\
        buildTree trace false nodes = Some b /\
        mainLoop trace false deadline E fuel 0 k
          = (replicate m (EFetch 0)
               ++ [EFetch (Z.of_nat (size nodes)); ERender b],
             LookupExit)))) as Hgen.
  { induction fuel as [|fuel IH]; intros k.
    { exists 0. split; [done|]. split; [intros j; lia|]. by left. }
    rewrite mainLoop_S. cbn [andb]. cbn zeta.
    destruct (fetchTrace (backend E k)) as [nodes|err|msg] eqn:Hfetch.
    - destruct (Z.eqb_spec (Z.of_nat (size nodes)) 0) as [Hzero|Hsome].
      + assert (nodes = ∅) as -> by (apply map_size_empty_inv; lia).
        destruct (IH (S k)) as (m & Hm & Hbefore & Hrun).
        exists (S m). split; [lia|]. split.
        { intros [|j] Hj; [by rewrite Nat.add_0_r|].
          replace (k + S j) with (S k + j) by lia. apply Hbefore. lia. }
        replace (k + S m) with (S k + m) by lia.
        rewrite map_size_empty. unfold prepend. cbn [app].
        destruct Hrun as [[-> ->]|[(err & ? & ->)|[(msg & ? & ->)
                         |(nodes & b & ? & ? & ? & ->)]]]; cbn [fst snd].
        * by left.
        * right. left. by exists err.
        * right. right. left. by exists msg.
        * right. right. right. by exists nodes, b.
      + exists 0. split; [lia|]. split; [intros j; lia|].
        rewrite Nat.add_0_r, Hfetch.
        destruct (buildTreeIn_lookup_total trace
                    (map_to_list nodes) (map_to_list nodes)) as [b Hb].
        unfold buildTree. rewrite Hb.
        right. right. right. exists nodes, b. repeat split; try done.
        intros ->. by rewrite map_size_empty in Hsome.
    - exists 0. split; [lia|]. split; [intros j; lia|].
      rewrite Nat.add_0_r, Hfetch. right. left. by exists err.
    - exists 0. split; [lia|]. split; [intros j; lia|].
      rewrite Nat.add_0_r, Hfetch. right. right. left. by exists msg. }
  destruct (Hgen 0) as (m & Hm & Hbefore & Hrun).
  exists m. split; [done|]. split; [exact Hbefore|]. exact Hrun.
Qed.

(** X12: the loop builds only when the number of records has changed: in every
    run, the record count of each fetch that is followed by a build (a
    render or a restart) differs from the count of the build before it,
    and the first one from the initial [lastNodeCount].  A fetch that
    returns as many records as the last build is never built, whatever
    the records are. *)
Theorem builds_only_on_a_changed_count `{Color} (trace : string)
    (recentRequest : bool) (deadline : Z) (E : env) (fuel : nat)
    (lastNodeCount : Z) (k : nat) :
  changing lastNodeCount
    (buildCounts
       (mainLoop trace recentRequest deadline E fuel lastNodeCount k).1).
Proof. apply mainLoop_changing. Qed.

(** X13: a failed fetch is never retried: a fetch that returns an error or
    panics is the last event of the run, the run ends with that error
    (or panic), and a run ends that way only after such a fetch. *)
Theorem a_failed_fetch_ends_the_run `{Color} (trace : string)
    (recentRequest : bool) (deadline : Z) (E : env) (fuel : nat)
    (lastNodeCount : Z) (k : nat) :
  (forall i,
     (mainLoop trace recentRequest deadline E fuel lastNodeCount k).1 !! i
       = Some EFetchFailed ->
     S i = length
             (mainLoop trace recentRequest deadline E fuel lastNodeCount k).1
     /\ exists j msg, k <= j /\
          ((mainLoop trace recentRequest deadline E fuel lastNodeCount k).2
             = Fatal msg /\ fetchTrace (backend E j) = FetchErr msg \/
           (mainLoop trace recentRequest deadline E fuel lastNodeCount k).2
             = Panicked msg /\ fetchTrace (backend E j) = FetchPanic msg)) /\
  ((exists msg,
      (mainLoop trace recentRequest deadline E fuel lastNodeCount k).2
        = Fatal msg \/
      (mainLoop trace recentRequest deadline E fuel lastNodeCount k).2
        = Panicked msg) ->
   last (mainLoop trace recentRequest deadline E fuel lastNodeCount k).1
     = Some EFetchFailed).
Proof.
  split.
  - intros i. apply mainLoop_failed.
  - apply mainLoop_fatal.
Qed.

(** X14: every build that is rendered is the build of the record set of one of
    the fetches of the run; while polling, its orphan collection is empty,
    so the orphaned subtree is printed by a lookup only. *)
Theorem rendered_builds_come_from_fetches `{Color} (trace : string)
    (recentRequest : bool) (deadline : Z) (E : env) (fuel : nat)
    (lastNodeCount : Z) (k : nat) (b : built) :
  ERender b
    ∈ (mainLoop trace recentRequest deadline E fuel lastNodeCount k).1 ->
  exists j nodes,
    k <= j /\
    fetchTrace (backend E j) = FetchOk nodes /\
    buildTree trace recentRequest nodes = Some b /\
    (recentRequest = true -> Items (b_heap b) (b_orphaned b) = []).
Proof.
  intros (j & nodes & Hj & Hfetch & Hb)%mainLoop_rendered.
  exists j, nodes. repeat split; try done.
  intros ->. unfold buildTree in Hb.
  rewrite (built_orphaned trace true _ _ b Hb).
  destruct (Items (b_heap b) 1) as [|c cs] eqn:Hcs; [done|].
  destruct (orphaned_item_parent trace true nodes
              (map_to_list nodes) (map_to_list nodes)
              (reflexivity _) (reflexivity _) b Hb c) as [? _]; [|done].
  rewrite Hcs. by left.
Qed.

Lemma rendered_builds_come_from_fetches_witness :
  exists j nodes,
    0 <= j /\
    fetchTrace (backend lateParent j) = FetchOk nodes /\
    @buildTree ansiColor "T" true nodes = Some lateParentBuilt /\
    (true = true ->
     Items (b_heap lateParentBuilt) (b_orphaned lateParentBuilt) = []).
Proof.
  apply (@rendered_builds_come_from_fetches ansiColor "T" true (seconds 30)
           lateParent 10 0 0 lateParentBuilt).
  apply (list_elem_of_lookup_2 _ 5). vm_compute. reflexivity.
Defined.

(** ** Properties of [transactionURL] and of the printing *)

Lemma replacePercent_occurs (u : string) :
  occurs percent (replacePercent u) = false.
Proof.
  induction u as [|c u IH]; [done|]. simpl. rewrite IH.
  destruct (Ascii.eqb c percent) eqn:Hc; [done|]. by rewrite Hc.
Qed.

Lemma replacePercent_length (u : string) :
  String.length (replacePercent u) = String.length u.
Proof. induction u as [|c u IH]; simpl; [done|]. by rewrite IH. Qed.

Lemma replacePercent_id (u : string) :
  occurs percent u = false -> replacePercent u = u.
Proof.
  induction u as [|c u IH]; [done|]. simpl.
  destruct (Ascii.eqb c percent); [done|]. simpl. intros Hu. by rewrite IH.
Qed.

(** X15: [transactionURL] returns a link exactly when Kibana answers the POST
    with status 200 and a body that decodes, and the link is then the
    Kibana URL followed by [/goto/] and the id of the answer.  The path it
    posts never contains a [%]: the escapes of the name and of the query,
    and any [%] of the service and type, which are not escaped, have
    become [~]; a path without [%] is posted as it is. *)
Theorem transactionURL_links (PathEscape : string -> string)
    (kibanaURL : string) (kibana : string -> shortenAnswer)
    (id : nodeId) (details : nodeDetails) :
  (forall url,
     transactionURL PathEscape kibanaURL kibana id details = Link url <->
     exists urlID,
       kibana (appPath PathEscape id details) = Answer 200 (inr urlID) /\
       url = kibanaURL +:+ "/goto/" +:+ urlID) /\
  occurs percent (appPath PathEscape id details) = false /\
  String.length (appPath PathEscape id details)
    = String.length
        ("/app/apm#/" +:+ service details +:+ "/transactions/"
           +:+ type_ details +:+ "/" +:+ PathEscape (name details)
           +:+ "?_g=()&kuery=" +:+ PathEscape (kueryOf id)) /\
  (occurs percent
     ("/app/apm#/" +:+ service details +:+ "/transactions/"
        +:+ type_ details +:+ "/" +:+ PathEscape (name details)
        +:+ "?_g=()&kuery=" +:+ PathEscape (kueryOf id)) = false ->
   appPath PathEscape id details
     = "/app/apm#/" +:+ service details +:+ "/transactions/"
         +:+ type_ details +:+ "/" +:+ PathEscape (name details)
         +:+ "?_g=()&kuery=" +:+ PathEscape (kueryOf id)).
Proof.
  split; [|split; [|split]].
  - intros url. unfold transactionURL.
    destruct (kibana (appPath PathEscape id details))
      as [err|err|status [derr|urlID]].
    + split; [done|]. by intros (urlID & ? & _).
    + split; [done|]. by intros (urlID & ? & _).
    + destruct (bool_decide (status <> 200%Z)).
      * split; [done|]. by intros (urlID' & ? & _).
      * split; [done|]. by intros (urlID' & ? & _).
    + destruct (bool_decide_reflect (status <> 200%Z)) as [Hne|Heq].
      * split; [done|]. intros (urlID' & [= -> _] & _). done.
      * apply dec_stable in Heq. subst status. split.
        -- intros [= <-]. by exists urlID.
        -- by intros (urlID' & [= <-] & ->).
  - apply replacePercent_occurs.
  - apply replacePercent_length.
  - apply replacePercent_id.
Qed.

Section Printing.
Context `{Color}.
Variable PathEscape : string -> string.
Variable kibanaURL : string.
Variable kibana : string -> shortenAnswer.

Lemma render_roots_trees (nodes : nodeMap) (b : built) (ids : list nodeId) :
  omap treeOf (ids ≫= renderRoot PathEscape kibanaURL kibana nodes b)
  = (fun id => b_treeNodes b !! id) <$> ids.
Proof.
  induction ids as [|id ids IH]; [done|].
  rewrite bind_cons, omap_app, IH. unfold renderRoot.
  by destruct (transactionURL _ _ _ _ _).
Qed.

Lemma render_roots_elem (nodes : nodeMap) (b : built) (ids : list nodeId)
    (p : printed) :
  p ∈ ids ≫= renderRoot PathEscape kibanaURL kibana nodes b ->
  exists id, id ∈ ids /\
    (p = PTree (b_treeNodes b !! id) \/
     exists url,
       p = PLink url /\
       transactionURL PathEscape kibanaURL kibana id (detailsOf nodes id)
         = Link url).
Proof.
  intros (id & Hp & Hid)%list_elem_of_bind. exists id. split; [done|].
  unfold renderRoot in Hp. apply elem_of_cons in Hp as [->|Hp]; [by left|].
  right. destruct (transactionURL _ _ _ _ _) as [url|err] eqn:Hurl.
  - apply list_elem_of_singleton in Hp as ->. by exists url.
  - by apply elem_of_nil in Hp.
Qed.

End Printing.

Lemma mainLoop_lookup_outcome `{Color} (trace : string) (deadline : Z)
    (E : env) (fuel : nat) (lastNodeCount : Z) (k : nat) :
  (mainLoop trace false deadline E fuel lastNodeCount k).2 <> DeadlineExit.
Proof.
  revert lastNodeCount k.
  induction fuel as [|fuel IH]; intros lastNodeCount k; [done|].
  rewrite mainLoop_S. cbn [andb]. cbn zeta.
  destruct (fetchTrace (backend E k)) as [nodes|err|msg]; [|done..].
  destruct (Z.of_nat (size nodes) =? lastNodeCount)%Z; [apply IH|].
  destruct (buildTree trace false nodes); [done|apply IH].
Qed.

Lemma mainLoop_polling_outcome `{Color} (trace : string) (deadline : Z)
    (E : env) (fuel : nat) (lastNodeCount : Z) (k : nat) :
  (mainLoop trace true deadline E fuel lastNodeCount k).2 <> LookupExit.
Proof.
  revert lastNodeCount k.
  induction fuel as [|fuel IH]; intros lastNodeCount k; [done|].
  rewrite mainLoop_S. cbn zeta.
  destruct (true && negb (clock E k <? deadline)%Z); [done|].
  destruct (fetchTrace (backend E k)) as [nodes|err|msg]; [|done..].
  destruct (Z.of_nat (size nodes) =? lastNodeCount)%Z; [apply IH|].
  destruct (buildTree trace true nodes); apply IH.
Qed.

Lemma start_modes_aux (O : outside) (args : list string)
    (traceFlag kibanaURLFlag : string) (pollDuration : Z)
    (usage : bool) (trace : string) (recentRequest : bool) (deadline : Z) :
  start O args traceFlag kibanaURLFlag pollDuration
    = Started usage trace recentRequest deadline ->
  (recentRequest = true <-> length args = 1).
Proof.
  unfold start.
  destruct (bool_decide (length args <> 1) && bool_decide (traceFlag = ""));
    [done|].
  destruct (urlParse O kibanaURLFlag); [done|].
  destruct args as [|arg [|arg' args]].
  - by intros [= _ _ <- _].
  - destruct (urlParse O arg); [done|].
    destruct (doRequest O arg); [done|]. by intros [= _ _ <- _].
  - by intros [= _ _ <- _].
Qed.

(** X16: what is printed for a build that ran to its end does not depend on
    Kibana except for the link lines: the trees printed are the nodes of
    the root transactions, in order, then the orphan node when it has
    items.  No printed tree is [nil].  The orphan node is printed exactly
    by a lookup in which the parent of some record is neither a record nor
    the root key.  Every link printed is the shortened URL of a root
    transaction. *)
Theorem render_prints_the_root_transactions `{Color}
    (PathEscape : string -> string) (kibanaURL : string)
    (kibana : string -> shortenAnswer)
    (trace : string) (recentRequest : bool) (nodes : nodeMap)
    (l1 l2 : list (nodeId * nodeDetails)) (b : built) :
  l1 ≡ₚ map_to_list nodes -> l2 ≡ₚ map_to_list nodes ->
  buildTreeIn trace recentRequest l1 l2 = Some b ->
  omap treeOf (render PathEscape kibanaURL kibana nodes b)
    = ((fun id => b_treeNodes b !! id) <$> b_rootTransactions b)
      ++ (if decide (0 < length (Items (b_heap b) (b_orphaned b)))
          then [Some (b_orphaned b)] else []) /\
  (forall t, PTree t ∈ render PathEscape kibanaURL kibana nodes b ->
     exists a, t = Some a /\ a < length (b_heap b)) /\
  (PTree (Some (b_orphaned b))
     ∈ render PathEscape kibanaURL kibana nodes b <->
   recentRequest = false /\
   exists id node, nodes !! id = Some node /\
     parentKey id node <> rootKey trace /\
     nodes !! parentKey id node = None) /\
  (forall url, PLink url ∈ render PathEscape kibanaURL kibana nodes b ->
     exists id node urlID,
       id ∈ b_rootTransactions b /\ nodes !! id = Some node /\
       transaction node = true /\
       kibana (appPath PathEscape id node) = Answer 200 (inr urlID) /\
       url = kibanaURL +:+ "/goto/" +:+ urlID).
Proof.
  intros Hl1 Hl2 Hbuild.
  pose proof (built_orphaned trace recentRequest l1 l2 b Hbuild) as Horph.
  pose proof (built_heap_length trace recentRequest nodes l1 l2 Hl1 b Hbuild)
    as Hlen.
  assert (forall id, id ∈ b_rootTransactions b ->
            exists node i, nodes !! id = Some node /\
              transaction node = true /\
              b_treeNodes b !! id = Some (2 + i) /\
              2 + i < length (b_heap b)) as Hroots.
  { intros id Hid.
    rewrite (built_rootTransactions trace recentRequest l1 l2 b Hbuild) in Hid.
    unfold rootTransactionsOf in Hid.
    apply list_elem_of_fmap in Hid as ([id' node] & -> & Hin).
    apply list_elem_of_filter in Hin as [[Htx _] Hin]. simpl in *.
    apply (elem_of_order2 nodes l2 Hl2) in Hin.
    destruct (treeNodes_record trace recentRequest nodes l1 l2 Hl1 b Hbuild
                id' node Hin) as (i & Hi & Ha).
    exists node, i. repeat split; try done.
    apply lookup_lt_Some in Hi. rewrite Hlen, <- (length_map_to_list nodes).
    rewrite <- Hl1. lia. }
  assert (0 < length (Items (b_heap b) (b_orphaned b)) <->
          recentRequest = false /\
          exists id node, nodes !! id = Some node /\
            parentKey id node <> rootKey trace /\
            nodes !! parentKey id node = None) as Horphans.
  { rewrite Horph. split.
    - intros Hpos.
      destruct (Items (b_heap b) 1) as [|c cs] eqn:Hcs; [simpl in Hpos; lia|].
      destruct (orphaned_item_parent trace recentRequest nodes l1 l2 Hl1 Hl2
                  b Hbuild c) as (Hmode & id & node & Hid & Hnone).
      { rewrite Hcs. by left. }
      split; [done|]. exists id, node. split; [done|].
      by apply (treeNodes_None trace recentRequest nodes l1 l2 Hl1 b Hbuild)
        in Hnone.
    - intros (-> & id & node & Hid & Hne & Hnone).
      destruct (treeNodes_record trace false nodes l1 l2 Hl1 b Hbuild
                  id node Hid) as (i & _ & Ha).
      assert (Some (2 + i) ∈ Items (b_heap b) 1) as Hin.
      { apply (placed trace false nodes l1 l2 Hl1 Hl2 b Hbuild
                 id node (2 + i) 1 Hid Ha).
        unfold parentNodeOf.
        assert (b_treeNodes b !! parentKey id node = None) as ->
          by by apply (treeNodes_None trace false nodes l1 l2 Hl1 b Hbuild).
        done. }
      destruct (Items (b_heap b) 1); [by apply elem_of_nil in Hin|].
      simpl. lia. }
  unfold render. split; [|split; [|split]].
  - rewrite omap_app, render_roots_trees. f_equal. by case_decide.
  - intros t [Hin|Hin]%elem_of_app.
    + apply render_roots_elem in Hin as (id & Hid & [[= ->]|(url & ? & _)]);
        [|done].
      destruct (Hroots id Hid) as (node & i & _ & _ & Ha & Hi).
      by exists (2 + i).
    + case_decide; [|by apply elem_of_nil in Hin].
      apply list_elem_of_singleton in Hin as [= ->].
      exists (b_orphaned b). split; [done|]. rewrite Horph, Hlen. lia.
  - rewrite <- Horphans. split.
    + intros [Hin|Hin]%elem_of_app.
      * apply render_roots_elem in Hin as (id & Hid & [[= Ht]|(url & ? & _)]);
          [|done].
        destruct (Hroots id Hid) as (node & i & _ & _ & Ha & _).
        rewrite Ha, Horph in Ht. injection Ht as Ht. lia.
      * case_decide; [done|by apply elem_of_nil in Hin].
    + intros Hpos. apply elem_of_app. right.
      rewrite decide_True by done. by left.
  - intros url [Hin|Hin]%elem_of_app.
    + apply render_roots_elem in Hin as (id & Hid & [?|(url' & [= <-] & Hurl)]);
        [done|].
      destruct (Hroots id Hid) as (node & i & Hnode & Htx & _).
      unfold detailsOf in Hurl. rewrite Hnode in Hurl. simpl in Hurl.
      unfold transactionURL in Hurl.
      destruct (kibana (appPath PathEscape id node))
        as [err|err|status [derr|urlID]] eqn:Hanswer; try done.
      * by destruct (bool_decide (status <> 200%Z)).
      * destruct (bool_decide_reflect (status <> 200%Z)) as [|Heq]; [done|].
        apply dec_stable in Heq. subst status. injection Hurl as <-.
        by exists id, node, urlID.
    + case_decide; [|by apply elem_of_nil in Hin].
      by apply list_elem_of_singleton in Hin.
Qed.

Lemma render_prints_the_root_transactions_witness :
  omap treeOf (render (fun s => s) "http://localhost:5601" shortening
                 rooted (lookupOf rooted))
    = ((fun id => b_treeNodes (lookupOf rooted) !! id)
         <$> b_rootTransactions (lookupOf rooted))
      ++ (if decide (0 < length (Items (b_heap (lookupOf rooted))
                                   (b_orphaned (lookupOf rooted))))
          then [Some (b_orphaned (lookupOf rooted))] else []) /\
  (forall t,
     PTree t ∈ render (fun s => s) "http://localhost:5601" shortening
                 rooted (lookupOf rooted) ->
     exists a, t = Some a /\ a < length (b_heap (lookupOf rooted))) /\
  (PTree (Some (b_orphaned (lookupOf rooted)))
     ∈ render (fun s => s) "http://localhost:5601" shortening
         rooted (lookupOf rooted) <->
   false = false /\
   exists id node, rooted !! id = Some node /\
     parentKey id node <> rootKey "T" /\
     rooted !! parentKey id node = None) /\
  (forall url,
     PLink url ∈ render (fun s => s) "http://localhost:5601" shortening
                   rooted (lookupOf rooted) ->
     exists id node urlID,
       id ∈ b_rootTransactions (lookupOf rooted) /\
       rooted !! id = Some node /\
       transaction node = true /\
       shortening (appPath (fun s => s) id node) = Answer 200 (inr urlID) /\
       url = "http://localhost:5601" +:+ "/goto/" +:+ urlID).
Proof.
  apply (@render_prints_the_root_transactions ansiColor (fun s => s)
           "http://localhost:5601" shortening "T" false rooted
           (map_to_list rooted) (map_to_list rooted)).
  - reflexivity.
  - reflexivity.
  - vm_compute. reflexivity.
Defined.

(** What is printed for [rooted], with Kibana answering and with Kibana
    down: the tree of the root transaction either way. *)
Example rooted_printed :
  render (fun s => s) "http://localhost:5601" shortening
         rooted (lookupOf rooted)
    = [PTree (Some 3); PLink "http://localhost:5601/goto/abc"] /\
  render (fun s => s) "http://localhost:5601" down rooted (lookupOf rooted)
    = [PTree (Some 3)].
Proof. split; vm_compute; reflexivity. Qed.

(** ** Properties of the start of [main] *)

(** X17: [main] stops with the usage message and status 2 exactly when there is
    no trace id and the number of arguments is not one.  When it enters
    the loop, it polls ([recentRequest]) exactly when there is one
    argument; a lookup keeps the trace id of the flag, which is not empty;
    a poll takes the trace id of the request it made and sets the deadline
    [pollDuration] after the start, and when a trace id was given besides
    the URL it has printed the usage message without stopping. *)
Theorem start_modes (O : outside) (args : list string)
    (traceFlag kibanaURLFlag : string) (pollDuration : Z) :
  (start O args traceFlag kibanaURLFlag pollDuration = UsageExit <->
   length args <> 1 /\ traceFlag = "") /\
  forall usage trace recentRequest deadline,
    start O args traceFlag kibanaURLFlag pollDuration
      = Started usage trace recentRequest deadline ->
    (recentRequest = true <-> length args = 1) /\
    (recentRequest = false ->
       usage = false /\ trace = traceFlag /\ trace <> "") /\
    (recentRequest = true ->
       (usage = true <-> traceFlag <> "") /\
       deadline = (startTime O + pollDuration)%Z /\
       exists arg, args = [arg] /\ doRequest O arg = inr trace).
Proof.
  unfold start.
  destruct (bool_decide_reflect (length args <> 1)) as [Hlen|Hlen];
    destruct (bool_decide_reflect (traceFlag = "")) as [Hflag|Hflag];
    cbn [andb]; [by split| | |];
    destruct (urlParse O kibanaURLFlag);
    try (split; [split; [done|by intros [? ?]]|done]);
    destruct args as [|arg [|arg' args]];
    try (by destruct Hlen);
    try (split; [split; [done|by intros [? ?]]|];
         intros usage trace recentRequest deadline [= <- <- <- <-];
         by repeat split);
    destruct (urlParse O arg);
    try (split; [split; [done|by intros [? ?]]|done]);
    destruct (doRequest O arg) as [err|t] eqn:Hreq;
    try (split; [split; [done|by intros [? ?]]|done]);
    (split; [split; [done|by intros [? ?]]|]);
    intros usage trace recentRequest deadline [= <- <- <- <-];
    (split; [done|]); (split; [done|]); intros _;
    (split; [|split; [done|by exists arg]]);
    apply bool_decide_eq_true.
Qed.

(** X18: [main] sleeps, jumps back or leaves by the deadline only when it was
    started with exactly one argument; started with one argument it never
    leaves by the lookup exit, and each of its fetches comes directly after
    a sleep. *)
Theorem main_polls_only_after_a_request `{Color} (O : outside) (E : env)
    (args : list string) (traceFlag kibanaURLFlag : string)
    (pollDuration : Z) (fuel : nat) (s : started) (evs : list event)
    (out : outcome) :
  mainRun O E args traceFlag kibanaURLFlag pollDuration fuel
    = (s, Some (evs, out)) ->
  (length args <> 1 ->
     (ESleep ∉ evs) /\ (ERestart ∉ evs) /\ out <> DeadlineExit) /\
  (length args = 1 ->
     out <> LookupExit /\
     forall i e, evs !! i = Some e -> isFetch e = true ->
       exists j, i = S j /\ evs !! j = Some ESleep).
Proof.
  unfold mainRun. intros Hrun.
  destruct (start O args traceFlag kibanaURLFlag pollDuration)
    as [| | | |usage trace recentRequest deadline] eqn:Hstart; try done.
  injection Hrun as <- Hrun.
  pose proof (start_modes_aux O args traceFlag kibanaURLFlag pollDuration
                usage trace recentRequest deadline Hstart) as Hmode.
  unfold run in Hrun. split.
  - intros Hlen. destruct recentRequest; [by destruct Hlen; apply Hmode|].
    pose proof (mainLoop_lookup_outcome trace deadline E fuel 0 0) as Hout.
    rewrite Hrun in Hout. repeat split; [| |done].
    + intros Hin. replace evs
        with (mainLoop trace false deadline E fuel 0 0).1 in Hin
        by by rewrite Hrun.
      by apply mainLoop_lookup_events in Hin as [? _].
    + intros Hin. replace evs
        with (mainLoop trace false deadline E fuel 0 0).1 in Hin
        by by rewrite Hrun.
      by apply mainLoop_lookup_events in Hin as [_ ?].
  - intros Hlen. apply Hmode in Hlen. subst recentRequest.
    pose proof (mainLoop_polling_outcome trace deadline E fuel 0 0) as Hout.
    pose proof (mainLoop_pollTrace trace deadline E fuel 0 0) as Hshape.
    rewrite Hrun in Hout, Hshape. split; [done|].
    by eapply pollTrace_fetch.
Qed.

Lemma main_polls_only_after_a_request_witness :
  (length ["http://localhost:8080/"] <> 1 ->
     (ESleep ∉ sixQuietPasses) /\ (ERestart ∉ sixQuietPasses) /\
     DeadlineExit <> DeadlineExit) /\
  (length ["http://localhost:8080/"] = 1 ->
     DeadlineExit <> LookupExit /\
     forall i e, sixQuietPasses !! i = Some e -> isFetch e = true ->
       exists j, i = S j /\ sixQuietPasses !! j = Some ESleep).
Proof.
  apply (@main_polls_only_after_a_request ansiColor friendly silent
           ["http://localhost:8080/"] "" "http://localhost:5601"
           (seconds 30) 10 (Started false "T" true (seconds 30))).
  vm_compute. reflexivity.
Defined.
